(** * OntarioTech registration bot: the monitoring engine of
      [main_code/starting_code.py], embedded and verified.

    The bot keeps two SQLite tables ([courses], [user_watchlist]), scrapes
    course rows through a browser driver, and polls the watchlist in
    [monitor_and_register].  The embedding follows the Python text:

    - Python [str] is [string]; a character is the code point it denotes, in
      the range U+0000..U+00FF.  Python [int] is [Z] (unbounded).
    - [try]/[except] is an explicit error result ([py]).
    - a table is the list of its rows in rowid order together with the
      AUTOINCREMENT counter; a statement is a function on [database].
    - the browser and the portal are an oracle ([world]) that answers every
      driver call; the effects of the monitor loop are a list of [event]s.

    Not modelled: failure of the SQLite calls themselves, and the digit-count
    limit an interpreter may put on [int()] of very long literals. *)

From Stdlib Require Import ZArith List String Ascii Bool Lia.
From Stdlib Require Import Permutation Sorted.
Import ListNotations.

Local Open Scope string_scope.
Local Open Scope list_scope.
Local Open Scope Z_scope.

(** ** Exceptions and results *)

Inductive exn : Type :=
| ValueError
| IndexError
| DriverError (msg : string).

Inductive py (A : Type) : Type :=
| Ok (a : A)
| Raise (e : exn).
Arguments Ok {A} a.
Arguments Raise {A} e.

Definition bind {A B : Type} (m : py A) (k : A -> py B) : py B :=
  match m with
  | Ok a => k a
  | Raise e => Raise e
  end.

Notation "x <- m ;; k" := (bind m (fun x => k))
  (at level 61, m at next level, right associativity).

(** [try: m except: d] *)
Definition try_except {A : Type} (m : py A) (d : A) : A :=
  match m with
  | Ok a => a
  | Raise _ => d
  end.

(** ** The built-ins of [str] and [int] that the bot calls *)

Module PyStr.

(** [s.split(sep)] for a one-character separator: never the empty list. *)
Fixpoint split (sep : ascii) (s : string) : list string :=
  match s with
  | EmptyString => [EmptyString]
  | String c r =>
      if Ascii.eqb c sep then EmptyString :: split sep r
      else match split sep r with
           | p :: ps => String c p :: ps
           | [] => [String c EmptyString]
           end
  end.

(** [parts[i]] *)
Definition index (parts : list string) (i : nat) : py string :=
  match nth_error parts i with
  | Some p => Ok p
  | None => Raise IndexError
  end.

Definition digit_value (c : ascii) : option Z :=
  let n := Z.of_N (N_of_ascii c) in
  if (48 <=? n) && (n <=? 57) then Some (n - 48) else None.

Definition is_digit (c : ascii) : bool :=
  match digit_value c with Some _ => true | None => false end.

(** White space that [int()] skips: tab, LF, VT, FF, CR, space, and the two
    white-space code points above U+007F in this range (NEL, NBSP). *)
Definition int_space (c : ascii) : bool :=
  let n := Z.of_N (N_of_ascii c) in
  ((9 <=? n) && (n <=? 13)) || (n =? 32) || (n =? 133) || (n =? 160).

Fixpoint skip_space (s : string) : string :=
  match s with
  | String c r => if int_space c then skip_space r else s
  | EmptyString => s
  end.

Fixpoint all_space (s : string) : bool :=
  match s with
  | String c r => int_space c && all_space r
  | EmptyString => true
  end.

(** The digits after the first one.  A single underscore may stand between
    two digits; the scan stops at the first character that is neither. *)
Fixpoint scan_digits (acc : Z) (s : string) : option (Z * string) :=
  match s with
  | String c r =>
      match digit_value c with
      | Some d => scan_digits (10 * acc + d) r
      | None =>
          if Ascii.eqb c "_" then
            match r with
            | String c' r' =>
                match digit_value c' with
                | Some d => scan_digits (10 * acc + d) r'
                | None => None
                end
            | EmptyString => None
            end
          else Some (acc, s)
      end
  | EmptyString => Some (acc, s)
  end.

Definition unsigned_literal (s : string) : py Z :=
  match s with
  | String c r =>
      match digit_value c with
      | Some d =>
          match scan_digits d r with
          | Some (n, rest) => if all_space rest then Ok n else Raise ValueError
          | None => Raise ValueError
          end
      | None => Raise ValueError
      end
  | EmptyString => Raise ValueError
  end.

(** [int(s)] in base 10. *)
Definition int (s : string) : py Z :=
  match skip_space s with
  | String c r =>
      if Ascii.eqb c "-" then n <- unsigned_literal r ;; Ok (- n)
      else if Ascii.eqb c "+" then unsigned_literal r
      else unsigned_literal (String c r)
  | EmptyString => Raise ValueError
  end.

End PyStr.

(** ** [parse_availability] *)

(** The body of the [try] block. *)
Definition parse_availability_try (availability_text : string) : py (Z * Z) :=
  let parts := PyStr.split "/" availability_text in
  available <- (p <- PyStr.index parts 0 ;; PyStr.int p) ;;
  total <- (p <- PyStr.index parts 1 ;; PyStr.int p) ;;
  Ok (available, total).

Definition parse_availability (availability_text : string) : Z * Z :=
  try_except (parse_availability_try availability_text) (0, 0).

(** ** The two tables *)

Record Course : Type := {
  code : string;
  name : string;
  credits : Z;
  available_spots : Z;
  total_spots : Z;
  instructor : string;
  schedule : string;
  prerequisites : string;
  status : string
}.

(** A row of [courses]: [id], the nine columns of [Course], [last_updated]. *)
Record course_row : Type := {
  c_id : Z;
  c_course : Course;
  last_updated : Z
}.

(** A row of [user_watchlist]. *)
Record watch_row : Type := {
  w_id : Z;
  course_code : string;
  priority : Z;
  auto_register : bool;
  added_date : Z
}.

(** Each table is the list of its rows by ascending rowid; the [_seq] fields
    are the AUTOINCREMENT counters (largest rowid handed out so far). *)
Record database : Type := {
  courses : list course_row;
  courses_seq : Z;
  user_watchlist : list watch_row;
  user_watchlist_seq : Z
}.

(** [setup_database] on a fresh file: both tables exist and are empty. *)
Definition setup_database : database :=
  {| courses := []; courses_seq := 0;
     user_watchlist := []; user_watchlist_seq := 0 |}.

Definition code_of (r : course_row) : string := code (c_course r).

(** [INSERT OR REPLACE INTO courses (code, ...) VALUES (...)]: [code] is
    UNIQUE, so a row with the same code is deleted before the new row is
    inserted under a fresh [id], with [last_updated] at its default. *)
Definition insert_or_replace_course (now : Z) (db : database) (c : Course)
  : database :=
  let id := courses_seq db + 1 in
  {| courses :=
       filter (fun r => negb (String.eqb (code_of r) (code c))) (courses db)
       ++ [ {| c_id := id; c_course := c; last_updated := now |} ];
     courses_seq := id;
     user_watchlist := user_watchlist db;
     user_watchlist_seq := user_watchlist_seq db |}.

(** [save_courses_to_db]: one statement per course, in list order; [clock i]
    is CURRENT_TIMESTAMP when statement number [i] runs. *)
Fixpoint save_from (clock : nat -> Z) (i : nat) (db : database)
    (cs : list Course) : database :=
  match cs with
  | [] => db
  | c :: rest =>
      save_from clock (S i) (insert_or_replace_course (clock i) db c) rest
  end.

Definition save_courses_to_db (clock : nat -> Z) (db : database)
    (cs : list Course) : database :=
  save_from clock 0 db cs.

(** [INSERT OR REPLACE INTO user_watchlist (course_code, priority,
    auto_register) VALUES (?, ?, ?)].  The only key of this table is the
    generated [id], so no existing row ever conflicts: the row is appended. *)
Definition insert_or_replace_watch (now : Z) (db : database)
    (c : string) (p : Z) (a : bool) : database :=
  let id := user_watchlist_seq db + 1 in
  {| courses := courses db;
     courses_seq := courses_seq db;
     user_watchlist :=
       user_watchlist db
       ++ [ {| w_id := id; course_code := c; priority := p;
               auto_register := a; added_date := now |} ];
     user_watchlist_seq := id |}.

(** [add_to_watchlist(course_code, priority=1, auto_register=False)];
    an argument left out at the call is [None]. *)
Definition add_to_watchlist (now : Z) (db : database) (c : string)
    (priority_arg : option Z) (auto_register_arg : option bool) : database :=
  let p := match priority_arg with Some p => p | None => 1 end in
  let a := match auto_register_arg with Some a => a | None => false end in
  insert_or_replace_watch now db c p a.

(** [ORDER BY priority]: rows of equal priority stay in scan (rowid) order. *)
Fixpoint insert_by_priority (r : watch_row) (l : list watch_row)
  : list watch_row :=
  match l with
  | [] => [r]
  | x :: xs =>
      if priority r <=? priority x then r :: l
      else x :: insert_by_priority r xs
  end.

Definition order_by_priority (l : list watch_row) : list watch_row :=
  fold_right insert_by_priority [] l.

(** [SELECT course_code FROM user_watchlist ORDER BY priority] *)
Definition get_watchlist_courses (db : database) : list string :=
  map course_code (order_by_priority (user_watchlist db)).

(** [SELECT * FROM courses WHERE code = ?], [fetchone()], and the nine
    columns after [id] rebuilt into a [Course]. *)
Definition check_course_availability (db : database) (c : string)
  : option Course :=
  match find (fun r => String.eqb (code_of r) c) (courses db) with
  | Some r => Some (c_course r)
  | None => None
  end.

(** [DELETE FROM user_watchlist WHERE course_code = ?] *)
Definition remove_from_watchlist (db : database) (c : string) : database :=
  {| courses := courses db;
     courses_seq := courses_seq db;
     user_watchlist :=
       filter (fun r => negb (String.eqb (course_code r) c))
              (user_watchlist db);
     user_watchlist_seq := user_watchlist_seq db |}.

(** Menu entry 1: [SELECT code, name, available_spots, total_spots, status
    FROM courses WHERE available_spots > 0]. *)
Definition list_available (db : database)
  : list (string * string * Z * Z * string) :=
  map (fun r => let c := c_course r in
                (code c, name c, available_spots c, total_spots c, status c))
      (filter (fun r => 0 <? available_spots (c_course r)) (courses db)).

(** ** Effects: what the bot prints and what it asks of the driver *)

Inductive log_line : Type :=
| Log_monitoring (attempt max_attempts : Z)
| Log_row_error (e : exn)
| Log_scrape_error (e : exn)
| Log_saved (n : nat)
| Log_added (c : string)
| Log_available (c : string)
| Log_registered (c : string)
| Log_registration_failed (c : string) (reason : string)
| Log_attempt_failed (e : exn)
| Log_waiting (delay : Z).

Inductive event : Type :=
| Print (l : log_line)
| Driver_refresh
| Call_attempt_registration (c : string)
| Sleep (delay : Z).

(** ** The portal, as the driver shows it *)

(** What the page answers during one [attempt_registration]:
    - [register_button]: finding the course's register button and clicking it;
    - [success_message]: the ten-second wait for the element of class
      [success-message] ([Raise] when the wait times out);
    - [error_message]: the text of the element of class [error-message]
      ([Raise] when there is none). *)
Record registration_page : Type := {
  register_button : py unit;
  success_message : py unit;
  error_message : py string
}.

(** One [.course-row] element: the text of each child the scraper reads, or
    the exception its lookup raises. *)
Record raw_row : Type := {
  r_code : py string;
  r_name : py string;
  r_credits : py string;
  r_availability : py string;
  r_instructor : py string;
  r_schedule : py string;
  r_status : py string
}.

(** The answers of the browser during [monitor_and_register], by iteration
    ([attempt]) and, for a registration, by position in the scanned
    watchlist; [clock] is the database's CURRENT_TIMESTAMP. *)
Record world : Type := {
  refresh : Z -> py unit;
  course_rows : Z -> py (list raw_row);
  registration : Z -> nat -> registration_page;
  clock : Z -> nat -> Z
}.

(** ** Scraping *)

Definition scrape_row (row : raw_row) : py Course :=
  c <- r_code row ;;
  n <- r_name row ;;
  cr <- (t <- r_credits row ;; PyStr.int t) ;;
  availability_text <- r_availability row ;;
  let '(available, total) := parse_availability availability_text in
  i <- r_instructor row ;;
  s <- r_schedule row ;;
  st <- r_status row ;;
  Ok {| code := c; name := n; credits := cr;
        available_spots := available; total_spots := total;
        instructor := i; schedule := s; prerequisites := "";
        status := st |}.

Fixpoint scrape_rows (rows : list raw_row) : list Course * list event :=
  match rows with
  | [] => ([], [])
  | row :: rest =>
      let '(cs, ev) := scrape_rows rest in
      match scrape_row row with
      | Ok c => (c :: cs, ev)
      | Raise e => (cs, Print (Log_row_error e) :: ev)
      end
  end.

Definition scrape_course_data (page : py (list raw_row))
  : list Course * list event :=
  match page with
  | Ok rows => scrape_rows rows
  | Raise e => ([], [Print (Log_scrape_error e)])
  end.

(** ** [attempt_registration] *)

(** The outer [try] catches whatever the lookups raise, the inner one the
    failed wait; every path returns a boolean. *)
Definition attempt_registration (page : registration_page) (c : string)
  : bool * list event :=
  match register_button page with
  | Raise e => (false, [Print (Log_attempt_failed e)])
  | Ok _ =>
      match success_message page with
      | Ok _ => (true, [Print (Log_registered c)])
      | Raise _ =>
          match error_message page with
          | Ok text => (false, [Print (Log_registration_failed c text)])
          | Raise e => (false, [Print (Log_attempt_failed e)])
          end
      end
  end.

(** ** [monitor_and_register] *)

(** The body of [for course_code in watchlist], answered by [page]. *)
Definition visit (page : registration_page) (db : database) (c : string)
  : database * list event :=
  match check_course_availability db c with
  | Some course =>
      if 0 <? available_spots course then
        let '(ok, ev) := attempt_registration page c in
        (if ok then remove_from_watchlist db c else db,
         Print (Log_available c) :: Call_attempt_registration c :: ev)
      else (db, [])
  | None => (db, [])
  end.

(** The [for] loop over the list fetched before it starts; [pos] counts the
    entries already visited. *)
Fixpoint acting (page : nat -> registration_page) (pos : nat)
    (watchlist : list string) (db : database) : database * list event :=
  match watchlist with
  | [] => (db, [])
  | c :: rest =>
      let '(db1, ev1) := visit (page pos) db c in
      let '(db2, ev2) := acting page (S pos) rest db1 in
      (db2, ev1 ++ ev2)
  end.

Inductive outcome : Type :=
| Returned
| Raised (e : exn).

(** [time.sleep(delay)] refuses a negative length. *)
Definition sleep (delay : Z) : py unit * list event :=
  if delay <? 0 then (Raise ValueError, []) else (Ok tt, [Sleep delay]).

(** One pass through the body of the [while] loop up to [attempt += 1]:
    refresh, scrape and save, then scan the watchlist and act.  An exception
    of [driver.refresh()] leaves the function. *)
Definition cycle (w : world) (max_attempts attempt : Z) (db : database)
  : database * list event * outcome :=
  let ev0 := [Print (Log_monitoring (attempt + 1) max_attempts);
              Driver_refresh] in
  match refresh w attempt with
  | Raise e => (db, ev0, Raised e)
  | Ok _ =>
      let '(cs, ev1) := scrape_course_data (course_rows w attempt) in
      let db1 := save_courses_to_db (clock w attempt) db cs in
      let ev2 := [Print (Log_saved (List.length cs))] in
      let watchlist := get_watchlist_courses db1 in
      let '(db2, ev3) := acting (registration w attempt) 0 watchlist db1 in
      (db2, ev0 ++ ev1 ++ ev2 ++ ev3, Returned)
  end.

(** The end of the body, [attempt] already incremented:
    [if attempt < max_attempts: print(...); time.sleep(delay)]. *)
Definition pause (max_attempts delay attempt : Z) : list event * outcome :=
  if attempt <? max_attempts then
    match sleep delay with
    | (Ok _, ev) => (Print (Log_waiting delay) :: ev, Returned)
    | (Raise e, ev) => (Print (Log_waiting delay) :: ev, Raised e)
    end
  else ([], Returned).

(** The [while attempt < max_attempts] loop, from the value [attempt] on.
    [fuel] bounds the number of passes through the body; [None] means the
    fuel ran out before the loop condition became false. *)
Fixpoint monitor_loop (fuel : nat) (w : world) (max_attempts delay : Z)
    (attempt : Z) (db : database) : option (database * list event * outcome) :=
  if attempt <? max_attempts then
    match fuel with
    | O => None
    | S fuel' =>
        match cycle w max_attempts attempt db with
        | (db1, ev1, Raised e) => Some (db1, ev1, Raised e)
        | (db1, ev1, Returned) =>
            let attempt' := attempt + 1 in
            match pause max_attempts delay attempt' with
            | (ev2, Raised e) => Some (db1, ev1 ++ ev2, Raised e)
            | (ev2, Returned) =>
                match monitor_loop fuel' w max_attempts delay attempt' db1 with
                | Some (db2, ev3, o) => Some (db2, ev1 ++ ev2 ++ ev3, o)
                | None => None
                end
            end
        end
    end
  else Some (db, [], Returned).

(** [monitor_and_register(max_attempts=100, delay=30)].  [max_attempts]
    passes are always enough fuel (see [monitor_loop_fuel]), so the default
    of the last branch is never taken. *)
Definition monitor_and_register (w : world) (max_attempts delay : option Z)
    (db : database) : database * list event * outcome :=
  let m := match max_attempts with Some m => m | None => 100 end in
  let d := match delay with Some d => d | None => 30 end in
  match monitor_loop (Z.to_nat m) w m d 0 db with
  | Some r => r
  | None => (db, [], Returned)
  end.

(** Reading a trace. *)
Definition attempted (evs : list event) : list string :=
  flat_map (fun e => match e with
                     | Call_attempt_registration c => [c]
                     | _ => []
                     end) evs.

Definition is_iteration_start (e : event) : bool :=
  match e with Print (Log_monitoring _ _) => true | _ => false end.

Definition is_sleep (e : event) : bool :=
  match e with Sleep _ => true | _ => false end.

Definition iterations (evs : list event) : nat :=
  List.length (filter is_iteration_start evs).

Definition sleeps (evs : list event) : nat :=
  List.length (filter is_sleep evs).

(** ** The interactive menu of [main] *)

(** One pass through the menu: the choice typed and what the terminal, the
    clock and the browser supply while it is served.  [Add_course] carries the
    course code as [input(...).upper()] returns it and the priority as typed. *)
Inductive choice : Type :=
| View_available
| Add_course (c : string) (priority_text : string) (now : Z)
| View_watchlist
| Start_monitoring (w : world)
| Manual_registration (c : string) (page : registration_page)
| Refresh_course_data (page : py (list raw_row)) (clk : nat -> Z)
| Exit
| Invalid_choice.

Inductive menu_result : Type :=
| Continue (db : database)
| Break (db : database)
| Crash (db : database) (e : exn).

Definition menu_step (db : database) (ch : choice) : menu_result :=
  match ch with
  | View_available =>
      (* prints [list_available db] *)
      Continue db
  | Add_course c priority_text now =>
      (* priority = int(input(...) or "1"); bot.add_to_watchlist(code, priority) *)
      let text := match priority_text with
                  | EmptyString => "1"
                  | _ => priority_text
                  end in
      match PyStr.int text with
      | Ok p => Continue (add_to_watchlist now db c (Some p) None)
      | Raise e => Crash db e
      end
  | View_watchlist =>
      (* prints [get_watchlist_courses db] with each course's availability *)
      Continue db
  | Start_monitoring w =>
      (* bot.monitor_and_register() *)
      match monitor_and_register w None None db with
      | (db', _, Returned) => Continue db'
      | (db', _, Raised e) => Crash db' e
      end
  | Manual_registration c page =>
      (* bot.attempt_registration(code): the result is dropped, no table is
         written *)
      let _ := attempt_registration page c in
      Continue db
  | Refresh_course_data page clk =>
      Continue (save_courses_to_db clk db (fst (scrape_course_data page)))
  | Exit => Break db
  | Invalid_choice => Continue db
  end.

(** The [while True] loop over the choices typed; it ends at [Exit], at an
    exception, or when the input ends. *)
Fixpoint menu_loop (db : database) (inputs : list choice) : database :=
  match inputs with
  | [] => db
  | ch :: rest =>
      match menu_step db ch with
      | Continue db' => menu_loop db' rest
      | Break db' => db'
      | Crash db' _ => db'
      end
  end.

(** [main] after a successful login: the first scrape is saved, then the menu
    runs. *)
Definition main (db : database) (page : py (list raw_row)) (clk : nat -> Z)
    (inputs : list choice) : database :=
  menu_loop (save_courses_to_db clk db (fst (scrape_course_data page))) inputs.

(** ** The specification's vocabulary, for comparison with the code *)

Module Spec.







(** "actionable iff a snapshot exists, availableSpots > 0, and autoRegister
    is true". *)
Definition actionable (db : database) (entry : watch_row) : bool :=
  match check_course_availability db (course_code entry) with
  | Some snapshot => (0 <? available_spots snapshot) && auto_register entry
  | None => false
  end.





(** [RegistrationOutcome] and the classification of section 4.4. *)
Inductive RegistrationOutcome : Type :=
| Success
| Failure (reason : string)
| Ambiguous_Timeout.

Definition classify (page : registration_page) : RegistrationOutcome :=
  match register_button page, success_message page, error_message page with
  | Ok _, Ok _, _ => Success
  | Ok _, Raise _, Ok reason => Failure reason
  | _, _, _ => Ambiguous_Timeout
  end.

Definition is_failure (o : RegistrationOutcome) : bool :=
  match o with Failure _ => true | _ => false end.

End Spec.

(** Characters of a string, tested one by one. *)
Fixpoint string_forallb (f : ascii -> bool) (s : string) : bool :=
  match s with
  | String c r => f c && string_forallb f r
  | EmptyString => true
  end.

Definition not_char (sep c : ascii) : bool := negb (Ascii.eqb c sep).


(** A character that can occur in a literal [int()] accepts. *)
Definition numeric_char (c : ascii) : bool :=
  PyStr.is_digit c || PyStr.int_space c
  || Ascii.eqb c "+" || Ascii.eqb c "-" || Ascii.eqb c "_".

(** ** What the program can read back from [courses] *)

(** The [Course] columns of the rows, in table order: every read of the
    table ([check_course_availability], [list_available]) is a function of
    this list; [id] and [last_updated] are never used. *)
Definition snapshot_view (db : database) : list Course :=
  map c_course (courses db).

(** The effect of one [INSERT OR REPLACE] on the view. *)
Definition upsert_view (l : list Course) (c : Course) : list Course :=
  filter (fun x => negb (String.eqb (code x) (code c))) l ++ [c].

Definition code_in (cs : list Course) (k : string) : bool :=
  existsb (fun c => String.eqb (code c) k) cs.

Definition rows_with_code (db : database) (k : string) : list course_row :=
  filter (fun r => String.eqb (code_of r) k) (courses db).

(** ** Reading the watchlist and a trace *)

Definition mem_string (k : string) (l : list string) : bool :=
  existsb (String.eqb k) l.

(** The codes for which [attempt_registration] reported success. *)
Definition registered (evs : list event) : list string :=
  flat_map (fun e => match e with
                     | Print (Log_registered c) => [c]
                     | _ => []
                     end) evs.

(** The test of the scan: [course and course.available_spots > 0]. *)
Definition has_open_seat (db : database) (c : string) : bool :=
  match check_course_availability db c with
  | Some course => 0 <? available_spots course
  | None => false
  end.





(** Every [Sleep] of a trace is directly followed by the start of an
    iteration. *)
Fixpoint sleep_then_iteration (evs : list event) : bool :=
  match evs with
  | [] => true
  | e :: rest =>
      (if is_sleep e then
         match rest with
         | e' :: _ => is_iteration_start e'
         | [] => false
         end
       else true)
      && sleep_then_iteration rest
  end.

(** Neither a sleep nor the start of an iteration. *)
Definition inner_event (e : event) : bool :=
  negb (is_sleep e) && negb (is_iteration_start e).

(** ** Sample data *)

Definition csci1030u : Course :=
  {| code := "CSCI1030U"; name := "Creative Coding"; credits := 3;
     available_spots := 5; total_spots := 30;
     instructor := "Staff"; schedule := "Mon 09:40";
     prerequisites := ""; status := "Open" |}.

Definition csci2050u : Course :=
  {| code := "CSCI2050U"; name := "Computer Architecture"; credits := 3;
     available_spots := 0; total_spots := 40;
     instructor := "Staff"; schedule := "Tue 11:10";
     prerequisites := ""; status := "Closed" |}.

Definition at_time (t : Z) : nat -> Z := fun _ => t.

(** The snapshot of CSCI1030U (5 of 30 seats open) stored at time 5. *)
Definition db_open : database :=
  save_courses_to_db (at_time 5) setup_database [csci1030u].

(** The menu's "add to watchlist" for CSCI1030U, priority 1, at time [t]. *)
Definition watch (t : Z) (db : database) : database :=
  add_to_watchlist t db "CSCI1030U" (Some 1) None.

(** Pages of the portal: a confirmation, a rejection with its reason, and a
    page that shows neither before the wait times out. *)
Definition page_confirmed : registration_page :=
  {| register_button := Ok tt; success_message := Ok tt;
     error_message := Raise (DriverError "no such element: .error-message") |}.

Definition page_rejected (reason : string) : registration_page :=
  {| register_button := Ok tt;
     success_message := Raise (DriverError "timeout");
     error_message := Ok reason |}.

Definition page_silent : registration_page :=
  {| register_button := Ok tt;
     success_message := Raise (DriverError "timeout");
     error_message := Raise (DriverError "no such element: .error-message") |}.

(** A browser that refreshes without error, scrapes the rows [rows] in every
    iteration and answers the registration at position [i] with [pages i]. *)
Definition steady_world (rows : list raw_row) (pages : nat -> registration_page)
  : world :=
  {| refresh := fun _ => Ok tt;
     course_rows := fun _ => Ok rows;
     registration := fun _ => pages;
     clock := fun _ _ => 100 |}.

Definition row_csci1030u : raw_row :=
  {| r_code := Ok "CSCI1030U"; r_name := Ok "Creative Coding";
     r_credits := Ok "3"; r_availability := Ok "5/30";
     r_instructor := Ok "Staff"; r_schedule := Ok "Mon 09:40";
     r_status := Ok "Open" |}.

(** ** More of [str]: [lower], [in], [strip] *)

Module PyText.

(** [c.lower()] for a code point below U+0100: the letters A-Z and the
    capital letters U+00C0..U+00DE (the sign U+00D7 is not one) move down
    by 32. *)
Definition lower_char (c : ascii) : ascii :=
  let n := N_of_ascii c in
  if ((65 <=? n) && (n <=? 90))%N
     || ((192 <=? n) && (n <=? 222) && negb (n =? 215))%N
  then ascii_of_N (n + 32) else c.

Fixpoint lower (s : string) : string :=
  match s with
  | EmptyString => EmptyString
  | String c r => String (lower_char c) (lower r)
  end.

Fixpoint starts_with (p s : string) : bool :=
  match p, s with
  | EmptyString, _ => true
  | String a p', String b s' => Ascii.eqb a b && starts_with p' s'
  | String _ _, EmptyString => false
  end.

(** [needle in hay] *)
Fixpoint contains (needle hay : string) : bool :=
  starts_with needle hay
  || match hay with
     | EmptyString => false
     | String _ r => contains needle r
     end.

(** White space for [str.strip()]. *)
Definition is_space (c : ascii) : bool :=
  let n := N_of_ascii c in
  (((9 <=? n) && (n <=? 13)) || ((28 <=? n) && (n <=? 32))
   || (n =? 133) || (n =? 160))%N.

Fixpoint lstrip (s : string) : string :=
  match s with
  | String c r => if is_space c then lstrip r else s
  | EmptyString => s
  end.

Fixpoint rstrip (s : string) : string :=
  match s with
  | String c r =>
      match rstrip r with
      | EmptyString => if is_space c then EmptyString
                       else String c EmptyString
      | r' => String c r'
      end
  | EmptyString => s
  end.

Definition strip (s : string) : string := rstrip (lstrip s).

End PyText.

(** ** Logging in and choosing the term *)

Inductive nav_log : Type :=
| Log_navigating (url : string)
| Log_login_ok
| Log_login_failed (e : exn)
| Log_term_selected (term : string)
| Log_term_not_found (term : string)
| Log_term_failed (e : exn)
| Log_search_found
| Log_search_not_found.

Inductive nav_event : Type :=
| Nav_print (l : nav_log)
| Driver_get (url : string)
| Click_result (i : nat)
| Probe (selector : string).

(** What the login page answers: [driver.get(url)], the wait for the user
    name field, the lookup of the password field, the two [send_keys], the
    lookup and click of the submit button, the wait for the dashboard. *)
Record login_page : Type := {
  get : string -> py unit;
  username_field : py unit;
  password_field : py unit;
  send_username : py unit;
  send_password : py unit;
  submit_button : py unit;
  dashboard : py unit
}.

(** The address [login_to_platform] navigates to: the [url] argument when it
    is given and not empty, else the stripped answer to the prompt, else the
    default.  [typed] is what [input(...)] returns. *)
Definition login_url (url : option string) (typed : py string) : py string :=
  match url with
  | Some (String c r) => Ok (String c r)
  | _ =>
      t <- typed ;;
      match PyText.strip t with
      | EmptyString => Ok "https://my.ontariotechu.ca"
      | answer => Ok answer
      end
  end.

Definition login_to_platform (page : login_page) (url : option string)
    (typed : py string) : bool * list nav_event :=
  match login_url url typed with
  | Raise e => (false, [Nav_print (Log_login_failed e)])
  | Ok u =>
      let ev := [Nav_print (Log_navigating u); Driver_get u] in
      match (_ <- get page u ;;
             _ <- username_field page ;;
             _ <- password_field page ;;
             _ <- send_username page ;;
             _ <- send_password page ;;
             _ <- submit_button page ;;
             dashboard page) with
      | Ok _ => (true, ev ++ [Nav_print Log_login_ok])
      | Raise e => (false, ev ++ [Nav_print (Log_login_failed e)])
      end
  end.

(** The address [main] passes to [login_to_platform]: [choice] is the answer
    to the first prompt, [typed] the answer to "Enter the full URL". *)
Definition choose_url (choice typed : string) : string :=
  let choice := PyText.strip choice in
  if String.eqb choice "1" then "https://my.ontariotechu.ca"
  else if String.eqb choice "2" then "https://ssbprod.ontariotechu.ca"
  else if String.eqb choice "3" then "https://ontariotechu.ca/myontariotech"
  else if String.eqb choice "4" then PyText.strip typed
  else choice.

(** One option of the term dropdown: its text and what clicking it does. *)
Record result_element : Type := {
  result_text : py string;
  result_click : py unit
}.

(** What the page answers during [select_term]: opening the dropdown (wait
    and click), typing into its search box (lookup, clear, send_keys), and
    the list of options found. *)
Record term_page : Type := {
  dropdown_trigger : py unit;
  search_input : py unit;
  term_results : py (list result_element)
}.

(** The [for result in results] loop: the index of the option clicked. *)
Fixpoint pick_result (term : string) (i : nat) (rs : list result_element)
  : py (option nat) :=
  match rs with
  | [] => Ok None
  | r :: rest =>
      text <- result_text r ;;
      if PyText.contains (PyText.lower term) (PyText.lower text) then
        _ <- result_click r ;; Ok (Some i)
      else pick_result term (S i) rest
  end.

Definition select_term (page : term_page) (term : string)
  : bool * list nav_event :=
  match (_ <- dropdown_trigger page ;;
         _ <- search_input page ;;
         rs <- term_results page ;;
         pick_result term 0 rs) with
  | Ok (Some i) => (true, [Click_result i; Nav_print (Log_term_selected term)])
  | Ok None => (false, [Nav_print (Log_term_not_found term)])
  | Raise e => (false, [Nav_print (Log_term_failed e)])
  end.




(** ** Menu entry 3: the watchlist as shown *)

(** One line per watchlist entry that has a snapshot: the code, the course
    name, and whether it is shown as AVAILABLE ([available_spots > 0]) or
    FULL.  Entries without a snapshot are not shown. *)
Definition view_watchlist (db : database) : list (string * string * bool) :=
  flat_map (fun c => match check_course_availability db c with
                     | Some course =>
                         [(c, name course, 0 <? available_spots course)]
                     | None => []
                     end)
           (get_watchlist_courses db).

(** ** Well-formed tables *)

(** No two rows of [courses] carry the same code (the UNIQUE constraint). *)
Definition unique_codes (db : database) : Prop :=
  NoDup (map code_of (courses db)).

(** Splits a right-nested conjunction into its parts. *)
Ltac conjs :=
  lazymatch goal with
  | |- _ /\ _ => split; [|conjs]
  | _ => idtac
  end.

(** * Facts *)

(** ** Strings *)

Section SplitFacts.

Variable sep : ascii.

Lemma split_not_nil (s : string) : PyStr.split sep s <> [].
Proof.
  induction s as [|c r IH]; simpl; [discriminate|].
  destruct (Ascii.eqb c sep); [discriminate|].
  destruct (PyStr.split sep r); [contradiction | discriminate].
Qed.

Lemma split_no_sep (s : string) :
  string_forallb (not_char sep) s = true -> PyStr.split sep s = [s].
Proof.
  induction s as [|c r IH]; simpl; [reflexivity|].
  unfold not_char at 1. intros H. apply andb_true_iff in H as [Hc Hr].
  apply negb_true_iff in Hc. rewrite Hc, (IH Hr). reflexivity.
Qed.

Lemma split_app_sep (a b : string) :
  string_forallb (not_char sep) a = true ->
  PyStr.split sep (a ++ String sep b) = a :: PyStr.split sep b.
Proof.
  induction a as [|c r IH]; simpl.
  - intros _. rewrite Ascii.eqb_refl. reflexivity.
  - unfold not_char at 1. intros H. apply andb_true_iff in H as [Hc Hr].
    apply negb_true_iff in Hc. rewrite Hc, (IH Hr). reflexivity.
Qed.


End SplitFacts.

Lemma forallb_weaken (f g : ascii -> bool) (s : string) :
  (forall c, f c = true -> g c = true) ->
  string_forallb f s = true -> string_forallb g s = true.
Proof.
  intros Hfg. induction s as [|c r IH]; simpl; [reflexivity|].
  intros H. apply andb_true_iff in H as [Hc Hr].
  rewrite (Hfg _ Hc), (IH Hr). reflexivity.
Qed.

Lemma digit_value_range (c : ascii) (d : Z) :
  PyStr.digit_value c = Some d -> 0 <= d <= 9.
Proof.
  unfold PyStr.digit_value.
  destruct (_ && _) eqn:E; [|discriminate].
  apply andb_true_iff in E as [E1 E2].
  intros [= <-]. lia.
Qed.



(** ** [int()] on numerals *)






(** ** What [int()] accepts *)

Lemma space_is_numeric (c : ascii) :
  PyStr.int_space c = true -> numeric_char c = true.
Proof.
  intros H. unfold numeric_char. rewrite H.
  destruct (PyStr.is_digit c); reflexivity.
Qed.

Lemma all_space_numeric (s : string) :
  PyStr.all_space s = true -> string_forallb numeric_char s = true.
Proof.
  induction s as [|c r IH]; simpl; [reflexivity|].
  intros H. apply andb_true_iff in H as [Hc Hr].
  rewrite (space_is_numeric c Hc), (IH Hr). reflexivity.
Qed.

Lemma digit_is_numeric (c : ascii) (d : Z) :
  PyStr.digit_value c = Some d -> numeric_char c = true.
Proof.
  intros H. unfold numeric_char, PyStr.is_digit. rewrite H. reflexivity.
Qed.

Lemma underscore_is_numeric (c : ascii) :
  Ascii.eqb c "_" = true -> numeric_char c = true.
Proof.
  intros H. unfold numeric_char. rewrite H.
  repeat rewrite orb_true_r. reflexivity.
Qed.

(** The scan reads two characters at a time after an underscore, so the
    induction is on a bound of the length. *)
Lemma scan_digits_inv (n : nat) : forall s acc v rest,
  (String.length s <= n)%nat ->
  PyStr.scan_digits acc s = Some (v, rest) ->
  (PyStr.all_space rest = true -> string_forallb numeric_char s = true)
  /\ (0 <= acc -> 0 <= v).
Proof.
  induction n as [|n IH]; intros s acc v rest Hlen Hscan.
  - destruct s; [|simpl in Hlen; lia].
    simpl in Hscan. injection Hscan as <- <-. split; auto.
  - destruct s as [|c r]; simpl in Hscan.
    + injection Hscan as <- <-. split; auto.
    + simpl in Hlen.
      destruct (PyStr.digit_value c) as [d|] eqn:Hd.
      * pose proof (digit_value_range _ _ Hd).
        destruct (IH r (10 * acc + d) v rest ltac:(lia) Hscan) as [H1 H2].
        split; [|intros; apply H2; lia].
        intros Hs. simpl. rewrite (digit_is_numeric _ _ Hd), (H1 Hs).
        reflexivity.
      * destruct (Ascii.eqb c "_") eqn:Hu.
        -- destruct r as [|c' r']; [discriminate|].
           destruct (PyStr.digit_value c') as [d|] eqn:Hd'; [|discriminate].
           pose proof (digit_value_range _ _ Hd').
           simpl in Hlen.
           destruct (IH r' (10 * acc + d) v rest ltac:(lia) Hscan) as [H1 H2].
           split; [|intros; apply H2; lia].
           intros Hs. simpl.
           rewrite (underscore_is_numeric _ Hu), (digit_is_numeric _ _ Hd'),
             (H1 Hs). reflexivity.
        -- injection Hscan as <- <-. split; [|auto].
           intros Hs. apply (all_space_numeric (String c r) Hs).
Qed.

Lemma unsigned_literal_inv (s : string) (v : Z) :
  PyStr.unsigned_literal s = Ok v ->
  string_forallb numeric_char s = true /\ 0 <= v.
Proof.
  unfold PyStr.unsigned_literal.
  destruct s as [|c r]; [discriminate|].
  destruct (PyStr.digit_value c) as [d|] eqn:Hd; [|discriminate].
  destruct (PyStr.scan_digits d r) as [[n rest]|] eqn:Hscan; [|discriminate].
  destruct (PyStr.all_space rest) eqn:Hs; [|discriminate].
  intros [= <-].
  pose proof (digit_value_range _ _ Hd).
  destruct (scan_digits_inv (String.length r) r d n rest (le_n _) Hscan)
    as [H1 H2].
  split; [|apply H2; lia].
  simpl. rewrite (digit_is_numeric _ _ Hd), (H1 Hs). reflexivity.
Qed.

Lemma skip_space_forallb (f : ascii -> bool) (s : string) :
  (forall c, PyStr.int_space c = true -> f c = true) ->
  string_forallb f (PyStr.skip_space s) = true ->
  string_forallb f s = true.
Proof.
  intros Hf. induction s as [|c r IH]; simpl; [reflexivity|].
  destruct (PyStr.int_space c) eqn:Hc.
  - intros H. rewrite (Hf c Hc), (IH H). reflexivity.
  - simpl. trivial.
Qed.


(** Every character of an accepted literal is a digit, a sign, an underscore
    or white space. *)
Lemma int_accepts_numeric (s : string) (v : Z) :
  PyStr.int s = Ok v -> string_forallb numeric_char s = true.
Proof.
  unfold PyStr.int. intros H.
  apply (skip_space_forallb numeric_char s space_is_numeric).
  destruct (PyStr.skip_space s) as [|c r]; [discriminate|].
  destruct (Ascii.eqb c "-") eqn:Hm.
  - destruct (PyStr.unsigned_literal r) as [n|] eqn:Hr; [|discriminate].
    apply unsigned_literal_inv in Hr as [Hr _].
    simpl. rewrite Hr. unfold numeric_char. rewrite Hm.
    repeat rewrite orb_true_r. reflexivity.
  - destruct (Ascii.eqb c "+") eqn:Hp.
    + apply unsigned_literal_inv in H as [Hr _].
      simpl. rewrite Hr. unfold numeric_char. rewrite Hp.
      repeat rewrite orb_true_r. reflexivity.
    + apply unsigned_literal_inv in H as [Hr _]. exact Hr.
Qed.


(** ** [parse_availability]: the soft failures *)






Example parse_15_30 : parse_availability "15/30" = (15, 30).
Proof. reflexivity. Qed.

Example parse_padded : parse_availability " 7 / 1_0 " = (7, 10).
Proof. reflexivity. Qed.

Example parse_no_separator : parse_availability "full" = (0, 0).
Proof. reflexivity. Qed.

Example parse_signed : parse_availability "-1/5" = (-1, 5).
Proof. reflexivity. Qed.

Example parse_double_underscore : parse_availability "1__0/5" = (0, 0).
Proof. reflexivity. Qed.







(** ** The [courses] table *)

Lemma filter_filter_and {A : Type} (f g : A -> bool) (l : list A) :
  filter f (filter g l) = filter (fun x => g x && f x) l.
Proof.
  induction l as [|x l IH]; simpl; [reflexivity|].
  destruct (g x); simpl; [destruct (f x)|]; rewrite IH; reflexivity.
Qed.

Lemma filter_map_comm {A B : Type} (g : A -> B) (f : B -> bool) (l : list A) :
  filter f (map g l) = map g (filter (fun x => f (g x)) l).
Proof.
  induction l as [|x l IH]; simpl; [reflexivity|].
  destruct (f (g x)); simpl; rewrite IH; reflexivity.
Qed.

Lemma filter_none {A : Type} (f : A -> bool) (l : list A) :
  (forall x, In x l -> f x = false) -> filter f l = [].
Proof.
  induction l as [|x l IH]; simpl; intros H; [reflexivity|].
  rewrite (H x (or_introl eq_refl)). apply IH. intros y Hy. apply H. now right.
Qed.

Lemma snapshot_view_insert (now : Z) (db : database) (c : Course) :
  snapshot_view (insert_or_replace_course now db c)
  = upsert_view (snapshot_view db) c.
Proof.
  unfold snapshot_view, upsert_view, insert_or_replace_course. simpl.
  rewrite map_app, filter_map_comm. reflexivity.
Qed.

Lemma snapshot_view_save (cs : list Course) : forall clk i db,
  snapshot_view (save_from clk i db cs)
  = fold_left upsert_view cs (snapshot_view db).
Proof.
  induction cs as [|c cs IH]; intros clk i db; simpl; [reflexivity|].
  rewrite IH, snapshot_view_insert. reflexivity.
Qed.




Lemma check_course_availability_view (db : database) (k : string) :
  check_course_availability db k
  = find (fun c => String.eqb (code c) k) (snapshot_view db).
Proof.
  unfold check_course_availability, snapshot_view, code_of.
  induction (courses db) as [|r l IH]; simpl; [reflexivity|].
  destruct (String.eqb (code (c_course r)) k); [reflexivity | exact IH].
Qed.




Example save_twice_fresh_id :
  map c_id (courses db_open) = [1]
  /\ map c_id (courses (save_courses_to_db (at_time 9) db_open [csci1030u]))
     = [2].
Proof. split; reflexivity. Qed.



(** ** The [user_watchlist] table *)


(** C2, at the failing input: adding CSCI1030U a second time leaves two rows
    with that course code in [user_watchlist], the first with its old
    [added_date]; the listing names the course twice. *)
Theorem add_to_watchlist_twice_two_rows :
  let db := watch 20 (watch 10 setup_database) in
  map (fun r => (course_code r, added_date r)) (user_watchlist db)
  = [("CSCI1030U", 10); ("CSCI1030U", 20)]
  /\ get_watchlist_courses db = ["CSCI1030U"; "CSCI1030U"]
  /\ ~ NoDup (map course_code (user_watchlist db)).
Proof.
  split; [reflexivity|]. split; [reflexivity|].
  intros H. inversion H as [|x l Hnotin _]; subst.
  apply Hnotin. left. reflexivity.
Qed.

(** ** [ORDER BY priority] *)

Lemma insert_by_priority_perm (r : watch_row) (l : list watch_row) :
  Permutation (insert_by_priority r l) (r :: l).
Proof.
  induction l as [|x l IH]; simpl; [apply Permutation_refl|].
  destruct (priority r <=? priority x); [apply Permutation_refl|].
  apply perm_trans with (x :: r :: l); [|apply perm_swap].
  apply perm_skip, IH.
Qed.

Lemma order_by_priority_perm (l : list watch_row) :
  Permutation (order_by_priority l) l.
Proof.
  induction l as [|r l IH]; simpl; [apply perm_nil|].
  apply perm_trans with (r :: order_by_priority l).
  - apply insert_by_priority_perm.
  - apply perm_skip, IH.
Qed.









Example watchlist_by_priority :
  get_watchlist_courses
    (add_to_watchlist 30
       (add_to_watchlist 20 (watch 10 setup_database)
                         "CSCI2050U" (Some 1) None)
       "MATH1010U" (Some 0) None)
  = ["MATH1010U"; "CSCI1030U"; "CSCI2050U"].
Proof. reflexivity. Qed.

(** ** [attempt_registration] *)

Lemma attempt_registration_cases (page : registration_page) (c : string) :
  (Spec.classify page = Spec.Success
   /\ attempt_registration page c = (true, [Print (Log_registered c)]))
  \/ (exists reason,
        Spec.classify page = Spec.Failure reason
        /\ attempt_registration page c
           = (false, [Print (Log_registration_failed c reason)]))
  \/ (exists e,
        Spec.classify page = Spec.Ambiguous_Timeout
        /\ attempt_registration page c
           = (false, [Print (Log_attempt_failed e)])).
Proof.
  unfold Spec.classify, attempt_registration.
  destruct (register_button page) as [u|e].
  - destruct (success_message page) as [u'|e'].
    + left. split; reflexivity.
    + destruct (error_message page) as [reason|e''].
      * right. left. exists reason. split; reflexivity.
      * right. right. exists e''. split; reflexivity.
  - right. right. exists e.
    split; [|reflexivity].
    destruct (success_message page), (error_message page); reflexivity.
Qed.

(** C8, as stated, fails: the value returned does not tell a rejection from
    a timeout.  A rejecting page and a silent page both give [False]. *)
Lemma attempt_registration_conflates :
  ~ (exists decode : bool -> bool,
       forall page c,
         decode (fst (attempt_registration page c))
         = Spec.is_failure (Spec.classify page)).
Proof.
  intros [decode H].
  pose proof (H (page_rejected "Course full") "CSCI1030U") as H1.
  pose proof (H page_silent "CSCI1030U") as H2.
  simpl in H1, H2. congruence.
Qed.

(** C8, amended: [attempt_registration] returns a boolean for every page (no
    failure case).  It is [True] exactly when the page confirms, and then the
    success line is printed.  It is [False] both when the page rejects and
    when neither signal is seen; the two differ only in the line printed: the
    rejection line carries the course code and the page's reason unchanged,
    the other line carries the text of the exception. *)
Theorem attempt_registration_outcome (page : registration_page) (c : string) :
  (fst (attempt_registration page c) = true
   <-> Spec.classify page = Spec.Success)
  /\ (Spec.classify page = Spec.Success ->
      snd (attempt_registration page c) = [Print (Log_registered c)])
  /\ (forall reason, Spec.classify page = Spec.Failure reason ->
      attempt_registration page c
      = (false, [Print (Log_registration_failed c reason)]))
  /\ (Spec.classify page = Spec.Ambiguous_Timeout ->
      exists e, attempt_registration page c
                = (false, [Print (Log_attempt_failed e)])).
Proof.
  destruct (attempt_registration_cases page c)
    as [[Hc Ha] | [(reason & Hc & Ha) | (e & Hc & Ha)]];
    rewrite Hc, Ha; simpl.
  - split; [tauto|]. split; [reflexivity|].
    split; [discriminate | discriminate].
  - split; [split; discriminate|]. split; [discriminate|].
    split; [intros r [= <-]; reflexivity | discriminate].
  - split; [split; discriminate|]. split; [discriminate|].
    split; [discriminate | intros _; exists e; reflexivity].
Qed.

Lemma attempt_registration_outcome_witness :
  attempt_registration (page_rejected "Course full") "CSCI1030U"
  = (false, [Print (Log_registration_failed "CSCI1030U" "Course full")])
  /\ snd (attempt_registration page_confirmed "CSCI1030U")
     = [Print (Log_registered "CSCI1030U")]
  /\ exists e, attempt_registration page_silent "CSCI1030U"
               = (false, [Print (Log_attempt_failed e)]).
Proof.
  split; [|split].
  - exact (proj1 (proj2 (proj2
      (attempt_registration_outcome (page_rejected "Course full") "CSCI1030U")))
      "Course full" eq_refl).
  - exact (proj1 (proj2
      (attempt_registration_outcome page_confirmed "CSCI1030U")) eq_refl).
  - exact (proj2 (proj2 (proj2
      (attempt_registration_outcome page_silent "CSCI1030U"))) eq_refl).
Defined.

(** ** The scan of the watchlist *)

Lemma registered_app (l1 l2 : list event) :
  registered (l1 ++ l2) = registered l1 ++ registered l2.
Proof. apply flat_map_app. Qed.

Lemma attempted_app (l1 l2 : list event) :
  attempted (l1 ++ l2) = attempted l1 ++ attempted l2.
Proof. apply flat_map_app. Qed.

Lemma has_open_seat_courses (db db' : database) (c : string) :
  courses db' = courses db -> has_open_seat db' c = has_open_seat db c.
Proof.
  unfold has_open_seat, check_course_availability. intros ->. reflexivity.
Qed.

Lemma filter_all {A : Type} (f : A -> bool) (l : list A) :
  (forall x, In x l -> f x = true) -> filter f l = l.
Proof.
  induction l as [|x l IH]; simpl; intros H; [reflexivity|].
  rewrite (H x (or_introl eq_refl)). f_equal. apply IH.
  intros y Hy. apply H. now right.
Qed.

(** One visit: the [courses] table is not written; a row of the watchlist
    goes exactly when the visit registered its code; the call is made exactly
    when the code has a snapshot with an open seat. *)
Lemma visit_spec (page : registration_page) (db : database) (c : string) :
  let db' := fst (visit page db c) in
  let evs := snd (visit page db c) in
  courses db' = courses db
  /\ user_watchlist db'
     = filter (fun r => negb (mem_string (course_code r) (registered evs)))
              (user_watchlist db)
  /\ attempted evs = (if has_open_seat db c then [c] else [])
  /\ registered evs
     = (if has_open_seat db c && fst (attempt_registration page c)
        then [c] else []).
Proof.
  unfold visit, has_open_seat.
  assert (Hnone : user_watchlist db
                  = filter (fun r => negb (mem_string (course_code r) []))
                           (user_watchlist db))
    by (symmetry; apply filter_all; reflexivity).
  destruct (check_course_availability db c) as [course|]; simpl;
    [|repeat split; exact Hnone].
  destruct (0 <? available_spots course); simpl;
    [|repeat split; exact Hnone].
  destruct (attempt_registration_cases page c)
    as [[_ Ha] | [(reason & _ & Ha) | (e & _ & Ha)]]; rewrite Ha; simpl.
  - repeat split. apply filter_ext. intros r.
    unfold mem_string. simpl. rewrite orb_false_r. reflexivity.
  - repeat split; exact Hnone.
  - repeat split; exact Hnone.
Qed.

Lemma mem_string_app (k : string) (l1 l2 : list string) :
  mem_string k (l1 ++ l2) = mem_string k l1 || mem_string k l2.
Proof. apply existsb_app. Qed.

Lemma acting_spec (page : nat -> registration_page) (wl : list string) :
  forall pos db,
    let db' := fst (acting page pos wl db) in
    let evs := snd (acting page pos wl db) in
    courses db' = courses db
    /\ user_watchlist db'
       = filter (fun r => negb (mem_string (course_code r) (registered evs)))
                (user_watchlist db)
    /\ attempted evs = filter (has_open_seat db) wl.
Proof.
  induction wl as [|c rest IH]; intros pos db; simpl.
  - repeat split. symmetry. apply filter_all. reflexivity.
  - pose proof (visit_spec (page pos) db c) as (Hc & Hw & Ha & _).
    destruct (visit (page pos) db c) as [db1 ev1]. simpl in Hc, Hw, Ha.
    specialize (IH (S pos) db1). destruct IH as (Hc2 & Hw2 & Ha2).
    destruct (acting page (S pos) rest db1) as [db2 ev2].
    simpl in Hc2, Hw2, Ha2 |- *.
    split; [congruence|]. split.
    + rewrite Hw2, Hw, filter_filter_and. apply filter_ext. intros r.
      rewrite registered_app, mem_string_app, negb_orb. reflexivity.
    + rewrite attempted_app, Ha, Ha2.
      rewrite (filter_ext _ _ (fun k => has_open_seat_courses db db1 k Hc)).
      destruct (has_open_seat db c); reflexivity.
Qed.

(** C1, as stated, fails.  The watchlist holds CSCI1030U as the menu stores
    it, with [auto_register] off, so no entry is actionable; the snapshot
    shows 5 open seats.  One monitoring cycle calls [attempt_registration] for
    CSCI1030U, and on confirmation removes the entry. *)
Lemma monitor_registers_manual_entry :
  let db := watch 10 db_open in
  let w := steady_world [row_csci1030u] (fun _ => page_confirmed) in
  let result := monitor_and_register w (Some 1) (Some 30) db in
  forallb (fun r => negb (Spec.actionable db r)) (user_watchlist db) = true
  /\ forallb (fun r => negb (auto_register r)) (user_watchlist db) = true
  /\ attempted (snd (fst result)) = ["CSCI1030U"]
  /\ user_watchlist (fst (fst result)) = [].
Proof. repeat split. Qed.

(** C1, amended: during the scan of one cycle, [attempt_registration] is
    called for the watchlist rows, taken in order of priority, whose course
    code has a snapshot with [available_spots > 0], once per such row; the
    [auto_register] flag of the row is not read.  So a call is made for a
    code exactly when a row of the watchlist carries it and its snapshot
    shows an open seat. *)
Theorem acting_attempts_open_seats (page : nat -> registration_page)
    (db : database) :
  let evs := snd (acting page 0 (get_watchlist_courses db) db) in
  attempted evs
  = map course_code
        (filter (fun r => has_open_seat db (course_code r))
                (order_by_priority (user_watchlist db)))
  /\ forall c,
       In c (attempted evs)
       <-> (exists r, In r (user_watchlist db) /\ course_code r = c)
           /\ (exists snapshot,
                 check_course_availability db c = Some snapshot
                 /\ 0 < available_spots snapshot).
Proof.
  intros evs.
  assert (Hevs : attempted evs
                 = filter (has_open_seat db) (get_watchlist_courses db))
    by (apply acting_spec).
  split.
  - rewrite Hevs. unfold get_watchlist_courses. apply filter_map_comm.
  - intros c. rewrite Hevs, filter_In. unfold get_watchlist_courses.
    rewrite in_map_iff. unfold has_open_seat. split.
    + intros [(r & Hr & Hin) Hopen]. split.
      * exists r. split; [|exact Hr].
        apply (Permutation_in _ (order_by_priority_perm _) Hin).
      * destruct (check_course_availability db c) as [snapshot|];
          [|discriminate].
        exists snapshot. split; [reflexivity | apply Z.ltb_lt, Hopen].
    + intros [(r & Hin & Hr) (snapshot & Hs & Hopen)]. split.
      * exists r. split; [exact Hr|].
        apply (Permutation_in _ (Permutation_sym (order_by_priority_perm _))
                 Hin).
      * rewrite Hs. apply Z.ltb_lt, Hopen.
Qed.

(** ** What a cycle does to the watchlist *)

Lemma mem_string_In (k : string) (l : list string) :
  mem_string k l = true <-> In k l.
Proof.
  unfold mem_string. rewrite existsb_exists. split.
  - intros (x & Hx & E). apply String.eqb_eq in E. subst. exact Hx.
  - intros H. exists k. split; [exact H | apply String.eqb_refl].
Qed.

(** The codes registered during a scan are those of the positions where the
    code has an open seat and the portal confirmed. *)
Lemma acting_registered (page : nat -> registration_page) (wl : list string) :
  forall pos db k,
    In k (registered (snd (acting page pos wl db)))
    <-> exists i, nth_error wl i = Some k
                  /\ has_open_seat db k = true
                  /\ fst (attempt_registration (page (pos + i)%nat) k) = true.
Proof.
  induction wl as [|c rest IH]; intros pos db k; simpl.
  - split; [intros [] | intros ([|i] & H & _); discriminate H].
  - pose proof (visit_spec (page pos) db c) as (Hc & _ & _ & Hr).
    destruct (visit (page pos) db c) as [db1 ev1]. simpl in Hc, Hr.
    specialize (IH (S pos) db1 k).
    destruct (acting page (S pos) rest db1) as [db2 ev2]. simpl in IH |- *.
    rewrite registered_app, in_app_iff, IH, Hr. clear IH Hr.
    split.
    + intros [H | (i & Hi & Ho & Hs)].
      * destruct (has_open_seat db c && _) eqn:E; [|destruct H].
        destruct H as [<-|[]]. apply andb_true_iff in E as [E1 E2].
        exists 0%nat. rewrite Nat.add_0_r. auto.
      * exists (S i). rewrite Nat.add_succ_r.
        rewrite (has_open_seat_courses db db1 k Hc) in Ho. auto.
    + intros ([|i] & Hi & Ho & Hs).
      * injection Hi as <-. rewrite Nat.add_0_r in Hs. rewrite Ho, Hs.
        left. left. reflexivity.
      * right. exists i. rewrite Nat.add_succ_r in Hs.
        rewrite (has_open_seat_courses db db1 k Hc). auto.
Qed.

Lemma rows_of_code_after_filter (c : string) (gone : list string)
    (l : list watch_row) :
  filter (fun r => String.eqb (course_code r) c)
         (filter (fun r => negb (mem_string (course_code r) gone)) l)
  = if mem_string c gone then []
    else filter (fun r => String.eqb (course_code r) c) l.
Proof.
  rewrite filter_filter_and.
  destruct (mem_string c gone) eqn:E.
  - apply filter_none. intros r _.
    destruct (String.eqb (course_code r) c) eqn:E2;
      [|apply andb_false_r].
    apply String.eqb_eq in E2. subst c. rewrite E. reflexivity.
  - apply filter_ext. intros r.
    destruct (String.eqb (course_code r) c) eqn:E2;
      [|apply andb_false_r].
    apply String.eqb_eq in E2. subst c. rewrite E. reflexivity.
Qed.

(** When no course code occurs twice in the scanned list, the scan follows
    the policy entry by entry: the rows of a code whose attempt succeeded are
    gone, the rows of a code whose attempt did not succeed are as before. *)
Lemma acting_policy_unique_codes (page : nat -> registration_page)
    (db : database) (wl : list string) (i : nat) (c : string) :
  NoDup wl ->
  nth_error wl i = Some c ->
  let db' := fst (acting page 0 wl db) in
  let rows_of d := filter (fun r => String.eqb (course_code r) c)
                          (user_watchlist d) in
  (has_open_seat db c = true ->
   fst (attempt_registration (page i) c) = true -> rows_of db' = [])
  /\ (fst (attempt_registration (page i) c) = false ->
      rows_of db' = rows_of db).
Proof.
  intros Hnd Hi db' rows_of. unfold rows_of, db'.
  destruct (acting_spec page wl 0%nat db) as (_ & Hw & _).
  rewrite Hw, rows_of_code_after_filter.
  pose proof (acting_registered page wl 0%nat db c) as Hreg. simpl in Hreg.
  split.
  - intros Ho Hs.
    assert (Hin : mem_string c (registered (snd (acting page 0 wl db))) = true).
    { apply mem_string_In, Hreg. exists i. auto. }
    rewrite Hin. reflexivity.
  - intros Hf.
    destruct (mem_string c (registered (snd (acting page 0 wl db)))) eqn:E;
      [|reflexivity].
    apply mem_string_In, Hreg in E. destruct E as (j & Hj & _ & Hs).
    assert (j = i).
    { apply (proj1 (NoDup_nth_error wl) Hnd).
      - apply nth_error_Some. rewrite Hj. discriminate.
      - congruence. }
    subst j. congruence.
Qed.

(** C6, at the failing input: CSCI1030U was added twice, so the scan visits
    it twice.  The portal confirms the first attempt and rejects the second
    ("Already registered").  The second entry's attempt failed, yet after the
    cycle the watchlist is empty: the successful first visit deleted both
    rows.  The same happens when the portal answers in the other order. *)
Theorem acting_failed_entry_removed :
  let db := watch 20 (watch 10 db_open) in
  let confirm_then_reject := fun i : nat =>
    match i with
    | O => page_confirmed
    | _ => page_rejected "Already registered"
    end in
  let reject_then_confirm := fun i : nat =>
    match i with
    | O => page_rejected "Course full"
    | _ => page_confirmed
    end in
  let run pages :=
    monitor_and_register (steady_world [row_csci1030u] pages)
                         (Some 1) (Some 30) db in
  map w_id (user_watchlist db) = [1; 2]
  /\ snd (fst (run confirm_then_reject))
     = [Print (Log_monitoring 1 1); Driver_refresh; Print (Log_saved 1);
        Print (Log_available "CSCI1030U");
        Call_attempt_registration "CSCI1030U";
        Print (Log_registered "CSCI1030U");
        Print (Log_available "CSCI1030U");
        Call_attempt_registration "CSCI1030U";
        Print (Log_registration_failed "CSCI1030U" "Already registered")]
  /\ user_watchlist (fst (fst (run confirm_then_reject))) = []
  /\ registered (snd (fst (run reject_then_confirm))) = ["CSCI1030U"]
  /\ user_watchlist (fst (fst (run reject_then_confirm))) = [].
Proof. repeat split. Qed.

(** ** The monitoring loop *)

Section TraceFacts.

Lemma iterations_app (l1 l2 : list event) :
  iterations (l1 ++ l2) = (iterations l1 + iterations l2)%nat.
Proof. unfold iterations. rewrite filter_app. apply length_app. Qed.

Lemma sleeps_app (l1 l2 : list event) :
  sleeps (l1 ++ l2) = (sleeps l1 + sleeps l2)%nat.
Proof. unfold sleeps. rewrite filter_app. apply length_app. Qed.

Lemma inner_app (l1 l2 : list event) :
  forallb inner_event l1 = true -> forallb inner_event l2 = true ->
  forallb inner_event (l1 ++ l2) = true.
Proof. intros H1 H2. rewrite forallb_app, H1, H2. reflexivity. Qed.

Lemma inner_counts (l : list event) :
  forallb inner_event l = true ->
  iterations l = 0%nat /\ sleeps l = 0%nat.
Proof.
  unfold iterations, sleeps.
  induction l as [|e l IH]; simpl; [auto|].
  intros H. apply andb_true_iff in H as [He Hl].
  unfold inner_event in He. apply andb_true_iff in He as [H1 H2].
  apply negb_true_iff in H1, H2. rewrite H1, H2. apply IH, Hl.
Qed.

Lemma inner_then (l r : list event) :
  forallb inner_event l = true ->
  sleep_then_iteration (l ++ r) = sleep_then_iteration r.
Proof.
  induction l as [|e l IH]; simpl; [reflexivity|].
  intros H. apply andb_true_iff in H as [He Hl].
  unfold inner_event in He. apply andb_true_iff in He as [H1 _].
  apply negb_true_iff in H1. rewrite H1. apply IH, Hl.
Qed.

Lemma inner_no_sleep (l : list event) (d : Z) :
  forallb inner_event l = true -> ~ In (Sleep d) l.
Proof.
  intros H Hin. rewrite forallb_forall in H.
  specialize (H _ Hin). discriminate H.
Qed.

End TraceFacts.

Lemma scrape_rows_inner (rows : list raw_row) :
  forallb inner_event (snd (scrape_rows rows)) = true.
Proof.
  induction rows as [|row rest IH]; simpl; [reflexivity|].
  destruct (scrape_rows rest) as [cs ev].
  destruct (scrape_row row); simpl; exact IH.
Qed.

Lemma scrape_course_data_inner (page : py (list raw_row)) :
  forallb inner_event (snd (scrape_course_data page)) = true.
Proof.
  destruct page; simpl; [apply scrape_rows_inner | reflexivity].
Qed.

Lemma visit_inner (page : registration_page) (db : database) (c : string) :
  forallb inner_event (snd (visit page db c)) = true.
Proof.
  unfold visit.
  destruct (check_course_availability db c) as [course|]; [|reflexivity].
  destruct (0 <? available_spots course); [|reflexivity].
  destruct (attempt_registration_cases page c)
    as [[_ Ha] | [(reason & _ & Ha) | (e & _ & Ha)]];
    rewrite Ha; reflexivity.
Qed.

Lemma acting_inner (page : nat -> registration_page) (wl : list string) :
  forall pos db, forallb inner_event (snd (acting page pos wl db)) = true.
Proof.
  induction wl as [|c rest IH]; intros pos db; simpl; [reflexivity|].
  pose proof (visit_inner (page pos) db c) as H1.
  destruct (visit (page pos) db c) as [db1 ev1].
  specialize (IH (S pos) db1).
  destruct (acting page (S pos) rest db1) as [db2 ev2].
  simpl in *. apply inner_app; assumption.
Qed.

(** A cycle prints its heading, asks for the refresh, and nothing after
    that is a sleep or another heading. *)
Lemma cycle_events (w : world) (max_attempts attempt : Z) (db : database) :
  exists inner,
    snd (fst (cycle w max_attempts attempt db))
    = Print (Log_monitoring (attempt + 1) max_attempts) :: inner
    /\ forallb inner_event inner = true.
Proof.
  unfold cycle. destruct (refresh w attempt) as [u|e].
  - pose proof (scrape_course_data_inner (course_rows w attempt)) as H1.
    destruct (scrape_course_data (course_rows w attempt)) as [cs ev1].
    set (db1 := save_courses_to_db (clock w attempt) db cs).
    pose proof (acting_inner (registration w attempt)
                  (get_watchlist_courses db1) 0%nat db1) as H3.
    destruct (acting (registration w attempt) 0 (get_watchlist_courses db1) db1)
      as [db2 ev3].
    simpl in *. eexists. split; [reflexivity|].
    apply inner_app; [exact H1|]. simpl. exact H3.
  - simpl. eexists. split; reflexivity.
Qed.

Lemma pause_cases (max_attempts delay attempt : Z) :
  (attempt < max_attempts /\ 0 <= delay
   /\ pause max_attempts delay attempt
      = ([Print (Log_waiting delay); Sleep delay], Returned))
  \/ (attempt < max_attempts /\ delay < 0
      /\ pause max_attempts delay attempt
         = ([Print (Log_waiting delay)], Raised ValueError))
  \/ (max_attempts <= attempt
      /\ pause max_attempts delay attempt = ([], Returned)).
Proof.
  unfold pause, sleep.
  destruct (attempt <? max_attempts) eqn:E.
  - apply Z.ltb_lt in E. destruct (delay <? 0) eqn:D.
    + apply Z.ltb_lt in D. right. left. auto.
    + apply Z.ltb_ge in D. left. auto.
  - apply Z.ltb_ge in E. right. right. auto.
Qed.

Lemma loop_exit_facts (max_attempts delay attempt : Z) :
  max_attempts <= attempt ->
  (iterations [] <= Z.to_nat (max_attempts - attempt))%nat
  /\ (Returned = Returned ->
      iterations [] = Z.to_nat (max_attempts - attempt))
  /\ sleeps [] = (iterations [] - 1)%nat
  /\ sleep_then_iteration [] = true
  /\ (forall d, In (Sleep d) [] -> d = delay /\ 0 <= delay)
  /\ (attempt < max_attempts ->
      exists tl, [] = Print (Log_monitoring (attempt + 1) max_attempts) :: tl).
Proof.
  intros Hge. conjs.
  - unfold iterations. simpl. lia.
  - intros _. unfold iterations. simpl. lia.
  - reflexivity.
  - reflexivity.
  - intros d [].
  - lia.
Qed.

(** The loop ends within [max_attempts - attempt] passes; it starts at most
    that many cycles, exactly that many when it returns; it sleeps once less
    than it starts cycles, each time for [delay] seconds and each time
    directly before the next cycle. *)
Lemma monitor_loop_fuel (fuel : nat) (w : world) (max_attempts delay : Z) :
  forall attempt db,
    (Z.to_nat (max_attempts - attempt) <= fuel)%nat ->
    exists db' evs o,
      monitor_loop fuel w max_attempts delay attempt db = Some (db', evs, o)
      /\ (iterations evs <= Z.to_nat (max_attempts - attempt))%nat
      /\ (o = Returned -> iterations evs = Z.to_nat (max_attempts - attempt))
      /\ sleeps evs = (iterations evs - 1)%nat
      /\ sleep_then_iteration evs = true
      /\ (forall d, In (Sleep d) evs -> d = delay /\ 0 <= delay)
      /\ (attempt < max_attempts ->
          exists tl, evs = Print (Log_monitoring (attempt + 1) max_attempts)
                           :: tl).
Proof.
  induction fuel as [|fuel IH]; intros attempt db Hfuel.
  - assert (Hge : max_attempts <= attempt) by lia.
    simpl. apply Z.ltb_ge in Hge. rewrite Hge.
    apply Z.ltb_ge in Hge.
    exists db, [], Returned. split; [reflexivity|].
    apply loop_exit_facts, Hge.
  - cbn [monitor_loop]. destruct (attempt <? max_attempts) eqn:Hlt.
    2:{ apply Z.ltb_ge in Hlt.
        exists db, [], Returned. split; [reflexivity|].
        apply loop_exit_facts, Hlt. }
    apply Z.ltb_lt in Hlt.
    destruct (cycle_events w max_attempts attempt db) as (inner & Hev & Hin).
    destruct (cycle w max_attempts attempt db) as [[db1 ev1] o1].
    simpl in Hev. subst ev1.
    destruct (inner_counts inner Hin) as [Hi0 Hs0].
    set (head := Print (Log_monitoring (attempt + 1) max_attempts)).
    assert (Hhead : forall l, iterations (head :: inner ++ l)
                              = S (iterations l)).
    { intros l. change (head :: inner ++ l) with ([head] ++ inner ++ l).
      rewrite !iterations_app, Hi0. reflexivity. }
    assert (Hheads : forall l, sleeps (head :: inner ++ l) = sleeps l).
    { intros l. change (head :: inner ++ l) with ([head] ++ inner ++ l).
      rewrite !sleeps_app, Hs0. reflexivity. }
    assert (Hthen : forall l, sleep_then_iteration (head :: inner ++ l)
                              = sleep_then_iteration l).
    { intros l. simpl. apply inner_then, Hin. }
    assert (Hsl : forall d l, In (Sleep d) (head :: inner ++ l) ->
                              In (Sleep d) l).
    { intros d l [H|H]; [discriminate H|].
      apply in_app_or in H as [H|H]; [|exact H].
      destruct (inner_no_sleep inner d Hin H). }
    destruct o1 as [|e].
    2:{ exists db1, (head :: inner), (Raised e).
        split; [reflexivity|].
        rewrite <- (app_nil_r inner), Hhead, Hheads, Hthen.
        conjs.
        - unfold iterations. simpl. lia.
        - discriminate.
        - reflexivity.
        - reflexivity.
        - intros d H. apply Hsl in H. destruct H.
        - intros _. eexists. reflexivity. }
    destruct (pause_cases max_attempts delay (attempt + 1))
      as [(Hlt' & Hd & ->) | [(Hlt' & Hd & ->) | (Hge' & ->)]].
    + destruct (IH (attempt + 1) db1 ltac:(lia))
        as (db2 & ev3 & o & -> & Hle & Hret & Hsleeps & Hsti & Hds & Hhd).
      destruct (Hhd Hlt') as (tl & ->).
      eexists db2, _, o.
      split; [reflexivity|].
      cbn [app]. rewrite Hhead, Hheads, Hthen.
      set (next := Print (Log_monitoring (attempt + 1 + 1) max_attempts)) in *.
      change (iterations (Print (Log_waiting delay) :: Sleep delay :: next :: tl))
        with (iterations (next :: tl)).
      change (sleeps (Print (Log_waiting delay) :: Sleep delay :: next :: tl))
        with (S (sleeps (next :: tl))).
      change (sleep_then_iteration
                (Print (Log_waiting delay) :: Sleep delay :: next :: tl))
        with (sleep_then_iteration (next :: tl)).
      assert (Hpos : (1 <= iterations (next :: tl))%nat)
        by (unfold iterations; simpl; lia).
      conjs.
      * lia.
      * intros Ho. specialize (Hret Ho). lia.
      * lia.
      * exact Hsti.
      * intros d H. apply Hsl in H as [H|[H|H]]; [discriminate H| |].
        -- injection H as <-. split; [reflexivity | exact Hd].
        -- apply (Hds d H).
      * intros _. eexists. reflexivity.
    + eexists db1, _, (Raised ValueError).
      split; [reflexivity|].
      cbn [app]. rewrite Hhead, Hheads, Hthen.
      conjs.
      * unfold iterations. simpl. lia.
      * discriminate.
      * reflexivity.
      * reflexivity.
      * intros d H. apply Hsl in H as [H|[]]. discriminate H.
      * intros _. eexists. reflexivity.
    + destruct (IH (attempt + 1) db1 ltac:(lia))
        as (db2 & ev3 & o & -> & Hle & Hret & Hsleeps & Hsti & Hds & _).
      eexists db2, _, o.
      split; [reflexivity|].
      cbn [app]. rewrite Hhead, Hheads, Hthen.
      conjs.
      * lia.
      * intros Ho. specialize (Hret Ho). lia.
      * lia.
      * exact Hsti.
      * intros d H. apply Hsl in H. apply (Hds d H).
      * intros _. eexists. reflexivity.
Qed.

(** C7.  For every N >= 0, [monitor_and_register(max_attempts=N, delay=d)]
    ends (N passes of fuel are enough for the loop to leave by its own
    condition), having started at most N refresh/scan/act iterations, exactly
    N when it returns normally, whatever the portal answers.  It sleeps once
    less than it starts iterations, for [d] seconds each time, and every
    sleep is directly followed by the start of the next iteration: there is
    none after the last one. *)
Theorem monitor_and_register_bounded (w : world) (N d : Z) (db : database) :
  0 <= N ->
  exists db' evs o,
    monitor_loop (Z.to_nat N) w N d 0 db = Some (db', evs, o)
    /\ monitor_and_register w (Some N) (Some d) db = (db', evs, o)
    /\ Z.of_nat (iterations evs) <= N
    /\ (o = Returned -> Z.of_nat (iterations evs) = N)
    /\ sleeps evs = (iterations evs - 1)%nat
    /\ sleep_then_iteration evs = true
    /\ (forall x, In (Sleep x) evs -> x = d).
Proof.
  intros HN.
  destruct (monitor_loop_fuel (Z.to_nat N) w N d 0 db)
    as (db' & evs & o & Hrun & Hle & Hret & Hsl & Hsti & Hds & _).
  { rewrite Z.sub_0_r. apply le_n. }
  rewrite Z.sub_0_r in Hle, Hret.
  exists db', evs, o. conjs.
  - exact Hrun.
  - unfold monitor_and_register. rewrite Hrun. reflexivity.
  - lia.
  - intros Ho. specialize (Hret Ho). lia.
  - exact Hsl.
  - exact Hsti.
  - intros x Hx. apply (Hds x Hx).
Qed.

Lemma monitor_and_register_bounded_witness :
  exists db' evs o,
    monitor_loop 2 (steady_world [row_csci1030u] (fun _ => page_silent))
                 2 30 0 (watch 10 db_open) = Some (db', evs, o)
    /\ Z.of_nat (iterations evs) <= 2
    /\ sleeps evs = (iterations evs - 1)%nat.
Proof.
  destruct (monitor_and_register_bounded
              (steady_world [row_csci1030u] (fun _ => page_silent))
              2 30 (watch 10 db_open) ltac:(lia))
    as (db' & evs & o & Hrun & _ & Hle & _ & Hsl & _).
  exists db', evs, o. auto.
Defined.

Example monitor_two_iterations :
  snd (fst (monitor_and_register
              (steady_world [row_csci1030u] (fun _ => page_silent))
              (Some 2) (Some 30) (watch 10 db_open)))
  = [Print (Log_monitoring 1 2); Driver_refresh; Print (Log_saved 1);
     Print (Log_available "CSCI1030U"); Call_attempt_registration "CSCI1030U";
     Print (Log_attempt_failed
              (DriverError "no such element: .error-message"));
     Print (Log_waiting 30); Sleep 30;
     Print (Log_monitoring 2 2); Driver_refresh; Print (Log_saved 1);
     Print (Log_available "CSCI1030U"); Call_attempt_registration "CSCI1030U";
     Print (Log_attempt_failed
              (DriverError "no such element: .error-message"))].
Proof. reflexivity. Qed.

(** ** The menu *)

Lemma save_from_watchlist (cs : list Course) : forall clk i db,
  user_watchlist (save_from clk i db cs) = user_watchlist db.
Proof.
  induction cs as [|c cs IH]; intros clk i db; simpl; [reflexivity|].
  rewrite IH. reflexivity.
Qed.








(** * Further properties of the code *)

(** ** [parse_availability]: literal forms *)









Lemma parse_availability_two_parts (p0 p1 : string) (rest : list string)
    (s : string) :
  PyStr.split "/" s = p0 :: p1 :: rest ->
  parse_availability s
  = try_except (available <- PyStr.int p0 ;;
                total <- PyStr.int p1 ;;
                Ok (available, total)) (0, 0).
Proof.
  intros H. unfold parse_availability, parse_availability_try. rewrite H.
  reflexivity.
Qed.

(** X1.  Only the first two parts of the text are read: whatever follows a
    second separator does not change the result. *)
Theorem parse_availability_ignores_rest (a b rest : string) :
  string_forallb (not_char "/") a = true ->
  string_forallb (not_char "/") b = true ->
  parse_availability (a ++ String "/" (b ++ String "/" rest))
  = parse_availability (a ++ String "/" b).
Proof.
  intros Ha Hb.
  rewrite (parse_availability_two_parts a b (PyStr.split "/" rest)).
  - rewrite (parse_availability_two_parts a b []); [reflexivity|].
    rewrite (split_app_sep "/" a b Ha), (split_no_sep "/" b Hb). reflexivity.
  - rewrite (split_app_sep "/" a _ Ha), (split_app_sep "/" b rest Hb).
    reflexivity.
Qed.

Lemma parse_availability_ignores_rest_witness :
  parse_availability "12/30/waitlist 4" = parse_availability "12/30".
Proof.
  exact (parse_availability_ignores_rest "12" "30" "waitlist 4"
           eq_refl eq_refl).
Defined.





(** ** The [courses] table: saving and looking up *)

Lemma find_upsert_view (l : list Course) (c : Course) (k : string) :
  find (fun x => String.eqb (code x) k) (upsert_view l c)
  = if String.eqb (code c) k then Some c
    else find (fun x => String.eqb (code x) k) l.
Proof.
  unfold upsert_view. induction l as [|x l IH]; simpl.
  - destruct (String.eqb (code c) k); reflexivity.
  - destruct (String.eqb (code x) (code c)) eqn:E; simpl.
    + rewrite IH. destruct (String.eqb (code c) k) eqn:E2; [reflexivity|].
      apply String.eqb_eq in E. rewrite E, E2. reflexivity.
    + rewrite IH. destruct (String.eqb (code x) k) eqn:E3; [|reflexivity].
      apply String.eqb_eq in E3. subst k. rewrite String.eqb_sym, E.
      reflexivity.
Qed.

Lemma find_fold_upsert_other (cs : list Course) (k : string) : forall l,
  code_in cs k = false ->
  find (fun x => String.eqb (code x) k) (fold_left upsert_view cs l)
  = find (fun x => String.eqb (code x) k) l.
Proof.
  induction cs as [|c cs IH]; intros l H; simpl; [reflexivity|].
  simpl in H. apply orb_false_iff in H as [Hc Hcs].
  rewrite (IH _ Hcs), find_upsert_view, Hc. reflexivity.
Qed.

Lemma check_after_save (clk : nat -> Z) (db : database) (cs : list Course)
    (k : string) :
  check_course_availability (save_courses_to_db clk db cs) k
  = find (fun x => String.eqb (code x) k)
         (fold_left upsert_view cs (snapshot_view db)).
Proof.
  rewrite check_course_availability_view. unfold save_courses_to_db.
  rewrite snapshot_view_save. reflexivity.
Qed.



(** X5.  Saving does not disturb the snapshot of a code that is not in the
    saved list: its lookup gives what it gave before (stale data stays). *)
Theorem save_keeps_other_codes (clk : nat -> Z) (db : database)
    (cs : list Course) (k : string) :
  code_in cs k = false ->
  check_course_availability (save_courses_to_db clk db cs) k
  = check_course_availability db k.
Proof.
  intros H. rewrite check_after_save, (find_fold_upsert_other cs k _ H).
  symmetry. apply check_course_availability_view.
Qed.

Lemma save_keeps_other_codes_witness :
  check_course_availability
    (save_courses_to_db (at_time 7) db_open [csci2050u]) "CSCI1030U"
  = check_course_availability db_open "CSCI1030U".
Proof.
  exact (save_keeps_other_codes (at_time 7) db_open [csci2050u] "CSCI1030U"
           eq_refl).
Defined.

(** X6.  [check_course_availability] answers with a stored course of the
    code asked for, and with [None] exactly when no row has that code (in
    particular on an empty table). *)
Theorem check_course_availability_sound (db : database) (k : string) :
  (forall c, check_course_availability db k = Some c ->
             code c = k /\ In c (snapshot_view db))
  /\ (check_course_availability db k = None <-> rows_with_code db k = []).
Proof.
  rewrite check_course_availability_view. unfold rows_with_code, snapshot_view.
  split.
  - intros c H. apply find_some in H as [Hin Hk].
    apply String.eqb_eq in Hk. auto.
  - induction (courses db) as [|r l IH]; simpl; [tauto|].
    unfold code_of at 1.
    destruct (String.eqb (code (c_course r)) k); [|exact IH].
    split; discriminate.
Qed.

Lemma check_course_availability_sound_witness :
  code csci1030u = "CSCI1030U"
  /\ (check_course_availability setup_database "CSCI1030U" = None).
Proof.
  split.
  - exact (proj1 (proj1 (check_course_availability_sound db_open "CSCI1030U")
                    csci1030u eq_refl)).
  - exact (proj2 (proj2 (check_course_availability_sound setup_database
                           "CSCI1030U")) eq_refl).
Defined.

(** ** Invariants of the whole program *)

(** [main] writes the database through three statements only.  A property
    that each of them keeps is kept by everything [main] does. *)
Section MainInvariant.

Variable P : database -> Prop.

Hypothesis insert_course_keeps :
  forall now db c, P db -> P (insert_or_replace_course now db c).
Hypothesis insert_watch_keeps :
  forall now db c p a, P db -> P (insert_or_replace_watch now db c p a).
Hypothesis remove_keeps :
  forall db c, P db -> P (remove_from_watchlist db c).

Lemma save_from_inv (cs : list Course) : forall clk i db,
  P db -> P (save_from clk i db cs).
Proof.
  induction cs as [|c cs IH]; intros clk i db H; simpl; [exact H|].
  apply IH, insert_course_keeps, H.
Qed.

Lemma visit_inv (page : registration_page) (db : database) (c : string) :
  P db -> P (fst (visit page db c)).
Proof.
  intros H. unfold visit.
  destruct (check_course_availability db c) as [course|]; [|exact H].
  destruct (0 <? available_spots course); [|exact H].
  destruct (attempt_registration page c) as [[|] ev]; simpl;
    [apply remove_keeps, H | exact H].
Qed.

Lemma acting_inv (page : nat -> registration_page) (wl : list string) :
  forall pos db, P db -> P (fst (acting page pos wl db)).
Proof.
  induction wl as [|c rest IH]; intros pos db H; simpl; [exact H|].
  pose proof (visit_inv (page pos) db c H) as H1.
  destruct (visit (page pos) db c) as [db1 ev1]. simpl in H1.
  specialize (IH (S pos) db1 H1).
  destruct (acting page (S pos) rest db1) as [db2 ev2]. exact IH.
Qed.

Lemma cycle_inv (w : world) (max_attempts attempt : Z) (db : database) :
  P db -> P (fst (fst (cycle w max_attempts attempt db))).
Proof.
  intros H. unfold cycle. destruct (refresh w attempt) as [u|e]; [|exact H].
  destruct (scrape_course_data (course_rows w attempt)) as [cs ev1].
  set (db1 := save_courses_to_db (clock w attempt) db cs).
  assert (H1 : P db1) by (apply save_from_inv, H).
  pose proof (acting_inv (registration w attempt) (get_watchlist_courses db1)
                0%nat db1 H1) as H2.
  destruct (acting (registration w attempt) 0 (get_watchlist_courses db1) db1)
    as [db2 ev3]. exact H2.
Qed.

Lemma monitor_loop_inv (fuel : nat) (w : world) (max_attempts delay : Z) :
  forall attempt db db' evs o,
    monitor_loop fuel w max_attempts delay attempt db = Some (db', evs, o) ->
    P db -> P db'.
Proof.
  induction fuel as [|fuel IH]; intros attempt db db' evs o; simpl.
  - destruct (attempt <? max_attempts); [discriminate|].
    intros [= <- _ _]. trivial.
  - destruct (attempt <? max_attempts); [|intros [= <- _ _]; trivial].
    pose proof (cycle_inv w max_attempts attempt db) as Hc.
    destruct (cycle w max_attempts attempt db) as [[db1 ev1] o1].
    simpl in Hc. destruct o1 as [|e]; [|intros [= <- _ _]; exact Hc].
    destruct (pause max_attempts delay (attempt + 1)) as [ev2 [|e]];
      [|intros [= <- _ _]; exact Hc].
    destruct (monitor_loop fuel w max_attempts delay (attempt + 1) db1)
      as [[[db2 ev3] o2]|] eqn:Hrec; [|discriminate].
    intros [= <- _ _] H. apply (IH _ _ _ _ _ Hrec), Hc, H.
Qed.

Lemma monitor_and_register_inv (w : world) (m d : option Z) (db : database) :
  P db -> P (fst (fst (monitor_and_register w m d db))).
Proof.
  intros H. unfold monitor_and_register.
  destruct (monitor_loop _ w _ _ 0 db) as [[[db' evs] o]|] eqn:Hrun;
    [|exact H].
  apply (monitor_loop_inv _ _ _ _ _ _ _ _ _ Hrun H).
Qed.

Lemma menu_step_inv (db : database) (ch : choice) :
  P db ->
  match menu_step db ch with
  | Continue db' | Break db' | Crash db' _ => P db'
  end.
Proof.
  intros H. destruct ch; simpl; try exact H.
  - destruct (PyStr.int _) as [p|e]; [|exact H].
    apply insert_watch_keeps, H.
  - pose proof (monitor_and_register_inv w None None db H) as Hm.
    destruct (monitor_and_register w None None db) as [[db' evs] [|e]];
      exact Hm.
  - apply save_from_inv, H.
Qed.

Lemma menu_loop_inv (inputs : list choice) : forall db,
  P db -> P (menu_loop db inputs).
Proof.
  induction inputs as [|ch rest IH]; intros db H; simpl; [exact H|].
  pose proof (menu_step_inv db ch H) as Hs.
  destruct (menu_step db ch); [apply IH|idtac|idtac]; exact Hs.
Qed.

Lemma main_inv (db : database) (page : py (list raw_row)) (clk : nat -> Z)
    (inputs : list choice) :
  P db -> P (main db page clk inputs).
Proof.
  intros H. unfold main. apply menu_loop_inv, save_from_inv, H.
Qed.

End MainInvariant.

Lemma insert_or_replace_course_unique (now : Z) (db : database) (c : Course) :
  unique_codes db -> unique_codes (insert_or_replace_course now db c).
Proof.
  unfold unique_codes, insert_or_replace_course. simpl. intros H.
  rewrite map_app. simpl.
  rewrite <- (filter_map_comm code_of
                (fun k => negb (String.eqb k (code c))) (courses db)).
  apply NoDup_app.
  - apply NoDup_filter, H.
  - constructor; [intros [] | constructor].
  - intros k Hk [<-|[]]. apply filter_In in Hk as [_ Hk].
    unfold code_of in Hk. simpl in Hk. rewrite String.eqb_refl in Hk.
    discriminate.
Qed.

(** X7.  The courses table never holds two snapshots of one course: if no
    code occurs twice before, none does after a save, and none does after a
    whole run of [main], whatever is scraped, typed or answered.  A fresh
    database has the property. *)
Theorem courses_codes_stay_unique :
  unique_codes setup_database
  /\ (forall clk db cs,
        unique_codes db -> unique_codes (save_courses_to_db clk db cs))
  /\ (forall db page clk inputs,
        unique_codes db -> unique_codes (main db page clk inputs)).
Proof.
  conjs.
  - constructor.
  - intros clk db cs. unfold save_courses_to_db.
    apply (save_from_inv unique_codes insert_or_replace_course_unique).
  - intros db page clk inputs.
    apply (main_inv unique_codes insert_or_replace_course_unique).
    + intros now d c p a H. exact H.
    + intros d c H. exact H.
Qed.

Lemma courses_codes_stay_unique_witness :
  unique_codes
    (main setup_database (Ok [row_csci1030u; row_csci1030u]) (at_time 1)
          [Add_course "CSCI1030U" "1" 10;
           Refresh_course_data (Ok [row_csci1030u]) (at_time 2);
           Start_monitoring
             (steady_world [row_csci1030u] (fun _ => page_confirmed));
           Exit]).
Proof.
  destruct courses_codes_stay_unique as (Hfresh & _ & Hmain).
  apply Hmain, Hfresh.
Defined.

(** ** The watchlist: listing after a removal or an addition *)





Lemma database_eta (db : database) :
  {| courses := courses db; courses_seq := courses_seq db;
     user_watchlist := user_watchlist db;
     user_watchlist_seq := user_watchlist_seq db |} = db.
Proof. destruct db; reflexivity. Qed.

Lemma remove_from_watchlist_absent (db : database) (c : string) :
  ~ In c (get_watchlist_courses db) -> remove_from_watchlist db c = db.
Proof.
  intros Hnot. unfold remove_from_watchlist.
  rewrite filter_all; [apply database_eta|].
  intros r Hr. apply negb_true_iff.
  destruct (String.eqb (course_code r) c) eqn:E; [|reflexivity].
  exfalso. apply Hnot. apply String.eqb_eq in E. subst c.
  unfold get_watchlist_courses. apply in_map.
  apply (Permutation_in _ (Permutation_sym (order_by_priority_perm _)) Hr).
Qed.



(** X9.  Adding a code and then removing it leaves the listing as a removal
    alone would: nothing of the added entry stays.  On a watchlist that did
    not hold the code, add-then-remove gives back the listing. *)
Theorem add_then_remove (now : Z) (db : database) (c : string)
    (p : option Z) (a : option bool) :
  get_watchlist_courses
    (remove_from_watchlist (add_to_watchlist now db c p a) c)
  = get_watchlist_courses (remove_from_watchlist db c)
  /\ (~ In c (get_watchlist_courses db) ->
      get_watchlist_courses
        (remove_from_watchlist (add_to_watchlist now db c p a) c)
      = get_watchlist_courses db).
Proof.
  assert (H1 : get_watchlist_courses
                 (remove_from_watchlist (add_to_watchlist now db c p a) c)
               = get_watchlist_courses (remove_from_watchlist db c)).
  { unfold get_watchlist_courses, remove_from_watchlist, add_to_watchlist,
      insert_or_replace_watch. simpl.
    rewrite filter_app. simpl. rewrite String.eqb_refl. simpl.
    rewrite app_nil_r. reflexivity. }
  split; [exact H1|].
  intros Hnot. rewrite H1, (remove_from_watchlist_absent db c Hnot).
  reflexivity.
Qed.

Lemma add_then_remove_witness :
  get_watchlist_courses
    (remove_from_watchlist (watch 10 db_open) "CSCI1030U")
  = get_watchlist_courses db_open.
Proof.
  apply (proj2 (add_then_remove 10 db_open "CSCI1030U" (Some 1) None)).
  intros [].
Defined.






Example add_between_priorities :
  get_watchlist_courses
    (add_to_watchlist 40
       (add_to_watchlist 30
          (add_to_watchlist 20 (watch 10 setup_database)
                            "CSCI2050U" (Some 3) None)
          "MATH1010U" (Some 1) None)
       "PHY1010U" (Some 1) None)
  = ["CSCI1030U"; "MATH1010U"; "PHY1010U"; "CSCI2050U"].
Proof. reflexivity. Qed.

(** ** Scraping *)

Lemma scrape_row_ok (row : raw_row) (c : Course) :
  scrape_row row = Ok c ->
  r_code row = Ok (code c)
  /\ prerequisites c = ""
  /\ (exists t, r_credits row = Ok t /\ PyStr.int t = Ok (credits c))
  /\ (exists t, r_availability row = Ok t
                /\ parse_availability t = (available_spots c, total_spots c)).
Proof.
  unfold scrape_row.
  destruct (r_code row) as [k|]; [|discriminate].
  destruct (r_name row) as [n|]; [|discriminate].
  destruct (r_credits row) as [ct|]; [|discriminate].
  cbn [bind]. destruct (PyStr.int ct) as [cr|] eqn:Hcr; [|discriminate].
  destruct (r_availability row) as [t|]; [|discriminate].
  cbn [bind]. destruct (parse_availability t) as [av tot] eqn:Hp.
  destruct (r_instructor row) as [i|]; [|discriminate].
  destruct (r_schedule row) as [s|]; [|discriminate].
  destruct (r_status row) as [st|]; [|discriminate].
  cbn [bind]. intros [= <-]. simpl. conjs.
  - reflexivity.
  - reflexivity.
  - exists ct. auto.
  - exists t. auto.
Qed.

(** X11.  Every scraped row is accounted for: it gives a course or it is
    reported by one error line, never both and never neither.  A course
    comes from a row of the same code; its credits are [int()] of the row's
    credits text, its seat counts are [parse_availability] of the row's
    availability text, and its prerequisites are empty. *)
Theorem scrape_course_data_accounts (rows : list raw_row) :
  let cs := fst (scrape_course_data (Ok rows)) in
  let evs := snd (scrape_course_data (Ok rows)) in
  (List.length cs + List.length evs = List.length rows)%nat
  /\ Forall (fun ev => exists e, ev = Print (Log_row_error e)) evs
  /\ Forall (fun c =>
       prerequisites c = ""
       /\ exists row ct t,
            In row rows /\ r_code row = Ok (code c)
            /\ r_credits row = Ok ct /\ PyStr.int ct = Ok (credits c)
            /\ r_availability row = Ok t
            /\ parse_availability t = (available_spots c, total_spots c)) cs.
Proof.
  cbn [scrape_course_data].
  induction rows as [|row rest IH]; cbn [scrape_rows].
  - simpl. conjs; constructor.
  - destruct (scrape_rows rest) as [cs ev]. simpl in IH.
    destruct IH as (Hlen & Hev & Hcs).
    assert (Hcs' : Forall (fun c =>
       prerequisites c = ""
       /\ exists row0 ct t,
            In row0 (row :: rest) /\ r_code row0 = Ok (code c)
            /\ r_credits row0 = Ok ct /\ PyStr.int ct = Ok (credits c)
            /\ r_availability row0 = Ok t
            /\ parse_availability t = (available_spots c, total_spots c)) cs).
    { rewrite Forall_forall in Hcs |- *. intros c Hc.
      destruct (Hcs c Hc) as (Hp & row0 & ct & t & Hin & Hrest).
      split; [exact Hp|]. exists row0, ct, t. split; [now right | exact Hrest]. }
    destruct (scrape_row row) as [c|e] eqn:Hrow; simpl.
    + conjs.
      * lia.
      * exact Hev.
      * constructor; [|exact Hcs'].
        destruct (scrape_row_ok row c Hrow)
          as (Hk & Hp & (ct & Hct & Hint) & (t & Ht & Hparse)).
        split; [exact Hp|]. exists row, ct, t.
        split; [now left | auto].
    + conjs.
      * lia.
      * constructor; [exists e; reflexivity | exact Hev].
      * exact Hcs'.
Qed.




(** ** The monitoring run as a whole *)

Lemma scrape_rows_silent (rows : list raw_row) :
  attempted (snd (scrape_rows rows)) = []
  /\ registered (snd (scrape_rows rows)) = [].
Proof.
  induction rows as [|row rest IH]; simpl; [auto|].
  destruct (scrape_rows rest) as [cs ev].
  destruct (scrape_row row); simpl; exact IH.
Qed.

Lemma scrape_course_data_silent (page : py (list raw_row)) :
  attempted (snd (scrape_course_data page)) = []
  /\ registered (snd (scrape_course_data page)) = [].
Proof.
  destruct page; simpl; [apply scrape_rows_silent | auto].
Qed.

Lemma listed_iff_row (db : database) (c : string) :
  In c (get_watchlist_courses db)
  <-> exists r, In r (user_watchlist db) /\ course_code r = c.
Proof.
  unfold get_watchlist_courses. rewrite in_map_iff. split.
  - intros (r & Hr & Hin). exists r. split; [|exact Hr].
    apply (Permutation_in _ (order_by_priority_perm _) Hin).
  - intros (r & Hin & Hr). exists r. split; [exact Hr|].
    apply (Permutation_in _ (Permutation_sym (order_by_priority_perm _)) Hin).
Qed.

Lemma not_registered_nil (l : list watch_row) :
  filter (fun r => negb (mem_string (course_code r) [])) l = l.
Proof. apply filter_all. reflexivity. Qed.

(** One cycle: which rows stay and which codes are attempted. *)
Lemma cycle_effect (w : world) (max_attempts attempt : Z) (db : database) :
  let db' := fst (fst (cycle w max_attempts attempt db)) in
  let evs := snd (fst (cycle w max_attempts attempt db)) in
  user_watchlist db'
  = filter (fun r => negb (mem_string (course_code r) (registered evs)))
           (user_watchlist db)
  /\ (forall c, In c (attempted evs) -> In c (get_watchlist_courses db))
  /\ (fst (scrape_course_data (course_rows w attempt)) = [] ->
      courses db' = courses db)
  /\ (forall u, refresh w attempt = Ok u ->
      snd (cycle w max_attempts attempt db) = Returned
      /\ iterations evs = 1%nat /\ sleeps evs = 0%nat).
Proof.
  pose proof (cycle_events w max_attempts attempt db) as Hevents.
  unfold cycle in *. destruct (refresh w attempt) as [u|e].
  - destruct (scrape_course_data_silent (course_rows w attempt)) as [Ha1 Hr1].
    destruct (scrape_course_data (course_rows w attempt)) as [cs ev1].
    set (db1 := save_courses_to_db (clock w attempt) db cs) in *.
    assert (Hwl : user_watchlist db1 = user_watchlist db)
      by (apply save_from_watchlist).
    assert (Hlist : get_watchlist_courses db1 = get_watchlist_courses db)
      by (unfold get_watchlist_courses; rewrite Hwl; reflexivity).
    destruct (acting_spec (registration w attempt) (get_watchlist_courses db1)
                0%nat db1) as (Hc & Hw & Ha).
    destruct (acting (registration w attempt) 0 (get_watchlist_courses db1) db1)
      as [db2 ev3].
    cbn [fst snd] in *. conjs.
    + rewrite Hw, Hwl. apply filter_ext. intros r.
      cbn [app]. simpl registered at 2.
      rewrite registered_app, Hr1. reflexivity.
    + intros c Hin. simpl attempted in Hin.
      rewrite attempted_app, Ha1 in Hin. simpl in Hin.
      rewrite Ha, Hlist in Hin. apply filter_In in Hin as [Hin _]. exact Hin.
    + intros Hcs. rewrite Hc. unfold db1. rewrite Hcs. reflexivity.
    + intros u0 _. split; [reflexivity|].
      destruct Hevents as (inner & Heq & Hin).
      destruct (inner_counts inner Hin) as [Hi Hs].
      rewrite Heq. unfold iterations, sleeps in *. simpl.
      rewrite Hi, Hs. auto.
  - cbn [fst snd]. conjs.
    + symmetry. apply not_registered_nil.
    + intros c [].
    + reflexivity.
    + discriminate.
Qed.

Lemma pause_silent (max_attempts delay attempt : Z) :
  attempted (fst (pause max_attempts delay attempt)) = []
  /\ registered (fst (pause max_attempts delay attempt)) = [].
Proof.
  destruct (pause_cases max_attempts delay attempt)
    as [(_ & _ & ->) | [(_ & _ & ->) | (_ & ->)]]; auto.
Qed.

Lemma monitor_loop_effect (fuel : nat) (w : world) (max_attempts delay : Z) :
  forall attempt db db' evs o,
    monitor_loop fuel w max_attempts delay attempt db = Some (db', evs, o) ->
    user_watchlist db'
    = filter (fun r => negb (mem_string (course_code r) (registered evs)))
             (user_watchlist db)
    /\ (forall c, In c (attempted evs) -> In c (get_watchlist_courses db))
    /\ ((forall k, fst (scrape_course_data (course_rows w k)) = []) ->
        courses db' = courses db).
Proof.
  induction fuel as [|fuel IH]; intros attempt db db' evs o; simpl.
  - destruct (attempt <? max_attempts); [discriminate|].
    intros [= <- <- _]. conjs;
      [symmetry; apply not_registered_nil | intros c [] | reflexivity].
  - destruct (attempt <? max_attempts).
    2:{ intros [= <- <- _]. conjs;
          [symmetry; apply not_registered_nil | intros c [] | reflexivity]. }
    destruct (cycle_effect w max_attempts attempt db) as (Hw & Ha & Hc & _).
    destruct (cycle w max_attempts attempt db) as [[db1 ev1] o1].
    cbn [fst snd] in Hw, Ha, Hc.
    destruct o1 as [|e].
    2:{ intros [= <- <- _]. conjs; [exact Hw | exact Ha | intros H; apply Hc, H]. }
    destruct (pause_silent max_attempts delay (attempt + 1)) as [Hpa Hpr].
    destruct (pause max_attempts delay (attempt + 1)) as [ev2 o2].
    cbn [fst] in Hpa, Hpr.
    destruct o2 as [|e].
    2:{ intros [= <- <- _]. conjs.
        - rewrite Hw. apply filter_ext. intros r.
          rewrite registered_app, Hpr, app_nil_r. reflexivity.
        - intros c Hin. rewrite attempted_app, Hpa, app_nil_r in Hin.
          apply Ha, Hin.
        - intros H. apply Hc, H. }
    destruct (monitor_loop fuel w max_attempts delay (attempt + 1) db1)
      as [[[db2 ev3] o3]|] eqn:Hrec; [|discriminate].
    intros [= <- <- _].
    destruct (IH _ _ _ _ _ Hrec) as (Hw3 & Ha3 & Hc3).
    conjs.
    + rewrite Hw3, Hw, filter_filter_and. apply filter_ext. intros r.
      rewrite !registered_app, Hpr, !mem_string_app, negb_orb. reflexivity.
    + intros c Hin. rewrite !attempted_app, Hpa in Hin.
      apply in_app_or in Hin as [Hin|Hin]; [apply Ha, Hin|].
      simpl in Hin. apply Ha3 in Hin. apply listed_iff_row in Hin.
      destruct Hin as (r & Hr & Hcode). apply listed_iff_row. exists r.
      split; [|exact Hcode]. rewrite Hw in Hr.
      apply filter_In in Hr as [Hr _]. exact Hr.
    + intros H. rewrite (Hc3 H). apply Hc, H.
Qed.

Lemma monitor_and_register_run (w : world) (m d : option Z) (db : database) :
  exists fuel max_attempts delay,
    monitor_loop fuel w max_attempts delay 0 db
    = Some (monitor_and_register w m d db).
Proof.
  unfold monitor_and_register.
  set (mx := match m with Some x => x | None => 100 end).
  set (dl := match d with Some x => x | None => 30 end).
  destruct (monitor_loop_fuel (Z.to_nat mx) w mx dl 0 db)
    as (db' & evs & o & Hrun & _).
  { rewrite Z.sub_0_r. apply le_n. }
  exists (Z.to_nat mx), mx, dl. rewrite Hrun. reflexivity.
Qed.

(** X13.  The monitor only ever attempts a registration for a course that
    was on the watchlist when it started, in whichever iteration. *)
Theorem monitor_attempts_only_watched (w : world) (m d : option Z)
    (db : database) (c : string) :
  In c (attempted (snd (fst (monitor_and_register w m d db)))) ->
  In c (get_watchlist_courses db).
Proof.
  destruct (monitor_and_register_run w m d db) as (fuel & mx & dl & Hrun).
  destruct (monitor_and_register w m d db) as [[db' evs] o].
  apply (monitor_loop_effect _ _ _ _ _ _ _ _ _ Hrun).
Qed.

Lemma monitor_attempts_only_watched_witness :
  In "CSCI1030U" (get_watchlist_courses (watch 10 db_open)).
Proof.
  apply (monitor_attempts_only_watched
           (steady_world [row_csci1030u] (fun _ => page_silent))
           (Some 2) (Some 30)).
  simpl. tauto.
Defined.

(** X14.  What a monitoring run leaves of the watchlist: exactly the rows it
    started with whose course code had no successful registration during the
    run, unchanged and in the same table order.  Nothing is added. *)
Theorem monitor_watchlist_after (w : world) (m d : option Z) (db : database) :
  let result := monitor_and_register w m d db in
  user_watchlist (fst (fst result))
  = filter (fun r => negb (mem_string (course_code r)
                                      (registered (snd (fst result)))))
           (user_watchlist db).
Proof.
  destruct (monitor_and_register_run w m d db) as (fuel & mx & dl & Hrun).
  destruct (monitor_and_register w m d db) as [[db' evs] o].
  apply (monitor_loop_effect _ _ _ _ _ _ _ _ _ Hrun).
Qed.

(** X15.  When every scrape of a run comes back empty or fails, no snapshot
    is lost or changed: the [courses] table after the run is the table before
    it, so the scan goes on with the last data it had. *)
Theorem failed_scrapes_keep_snapshots (w : world) (m d : option Z)
    (db : database) :
  (forall k, fst (scrape_course_data (course_rows w k)) = []) ->
  courses (fst (fst (monitor_and_register w m d db))) = courses db.
Proof.
  destruct (monitor_and_register_run w m d db) as (fuel & mx & dl & Hrun).
  destruct (monitor_and_register w m d db) as [[db' evs] o].
  apply (monitor_loop_effect _ _ _ _ _ _ _ _ _ Hrun).
Qed.

Lemma failed_scrapes_keep_snapshots_witness :
  let w := {| refresh := fun _ => Ok tt;
              course_rows := fun _ => Raise (DriverError "stale page");
              registration := fun _ _ => page_silent;
              clock := fun _ _ => 100 |} in
  courses (fst (fst (monitor_and_register w (Some 3) (Some 30)
                                          (watch 10 db_open))))
  = courses db_open.
Proof.
  intros w.
  apply (failed_scrapes_keep_snapshots w (Some 3) (Some 30) (watch 10 db_open)).
  intros k. reflexivity.
Defined.



(** X17.  A scan in which no listed course has a snapshot with an open seat
    (an empty watchlist included) calls nothing, prints nothing and leaves
    the database exactly as it was. *)
Theorem scan_without_open_seat (page : nat -> registration_page)
    (wl : list string) (db : database) :
  (forall c, In c wl -> has_open_seat db c = false) ->
  forall pos, acting page pos wl db = (db, []).
Proof.
  induction wl as [|c rest IH]; intros H pos; [reflexivity|].
  cbn [acting].
  assert (Hvisit : visit (page pos) db c = (db, [])).
  { specialize (H c (or_introl eq_refl)). unfold has_open_seat in H.
    unfold visit. destruct (check_course_availability db c) as [course|];
      [rewrite H|]; reflexivity. }
  rewrite Hvisit, IH; [reflexivity|].
  intros k Hk. apply H. now right.
Qed.

Lemma scan_without_open_seat_witness :
  let db := add_to_watchlist 10
              (save_courses_to_db (at_time 5) setup_database [csci2050u])
              "CSCI2050U" (Some 1) (Some true) in
  acting (fun _ => page_confirmed) 0 (get_watchlist_courses db) db = (db, []).
Proof.
  intros db. apply scan_without_open_seat.
  intros c [<-|[]]. reflexivity.
Defined.

(** X18.  The priority typed at the menu.  An empty answer means priority 1.
    An answer holding any character that is not a digit, a sign, an
    underscore or white space makes [int()] raise: nothing is added and the
    menu loop ends there, whatever was to be typed next. *)
Theorem menu_priority_input (db : database) (c text : string) (now : Z)
    (rest : list choice) :
  menu_step db (Add_course c "" now)
  = Continue (add_to_watchlist now db c (Some 1) None)
  /\ (string_forallb numeric_char text = false ->
      menu_loop db (Add_course c text now :: rest) = db).
Proof.
  split; [reflexivity|].
  intros Hbad. cbn [menu_loop menu_step].
  destruct text as [|ch tl]; [discriminate Hbad|].
  destruct (PyStr.int (String ch tl)) as [p|e] eqn:Hint; [|reflexivity].
  rewrite (int_accepts_numeric _ _ Hint) in Hbad. discriminate.
Qed.

Lemma menu_priority_input_witness :
  menu_loop db_open [Add_course "CSCI1030U" "high" 10;
                     Add_course "CSCI2050U" "2" 20; Exit]
  = db_open.
Proof.
  exact (proj2 (menu_priority_input db_open "CSCI1030U" "high" 10
                  [Add_course "CSCI2050U" "2" 20; Exit]) eq_refl).
Defined.

(** ** Choosing the term and reaching the course search *)

Lemma starts_with_spec (p s : string) :
  PyText.starts_with p s = true <-> exists b, s = (p ++ b)%string.
Proof.
  revert s. induction p as [|a p IH]; intros s; simpl.
  - split; [intros _; exists s; reflexivity | reflexivity].
  - destruct s as [|c s].
    + split; [discriminate | intros [b Hb]; discriminate Hb].
    + rewrite andb_true_iff, IH, Ascii.eqb_eq. split.
      * intros [-> [b ->]]. exists b. reflexivity.
      * intros [b Hb]. injection Hb as -> ->. split; [reflexivity|].
        exists b. reflexivity.
Qed.

(** [contains] is the substring test. *)
Lemma contains_spec (needle hay : string) :
  PyText.contains needle hay = true
  <-> exists a b, hay = (a ++ needle ++ b)%string.
Proof.
  induction hay as [|c r IH]; simpl.
  - rewrite orb_false_r, starts_with_spec. split.
    + intros [b Hb]. exists EmptyString, b. exact Hb.
    + intros (a & b & H). destruct a as [|x a']; [|discriminate H].
      exists b. exact H.
  - rewrite orb_true_iff, starts_with_spec, IH. split.
    + intros [[b Hb] | (a & b & H)].
      * exists EmptyString, b. exact Hb.
      * exists (String c a), b. simpl. rewrite H. reflexivity.
    + intros (a & b & H). destruct a as [|x a'].
      * left. exists b. exact H.
      * right. injection H as _ H. exists a', b. exact H.
Qed.

Lemma pick_result_some (term : string) (rs : list result_element) :
  forall i k,
    pick_result term i rs = Ok (Some k) ->
    exists j r text,
      k = (i + j)%nat
      /\ nth_error rs j = Some r
      /\ result_text r = Ok text
      /\ PyText.contains (PyText.lower term) (PyText.lower text) = true
      /\ (forall j' r', (j' < j)%nat -> nth_error rs j' = Some r' ->
            exists t', result_text r' = Ok t'
                       /\ PyText.contains (PyText.lower term) (PyText.lower t')
                          = false).
Proof.
  induction rs as [|r rest IH]; intros i k; simpl; [discriminate|].
  destruct (result_text r) as [text|] eqn:Htext; [|discriminate].
  cbn [bind].
  destruct (PyText.contains (PyText.lower term) (PyText.lower text)) eqn:Hc.
  - destruct (result_click r); [|discriminate]. cbn [bind].
    intros [= <-]. exists 0%nat, r, text. conjs.
    + lia.
    + reflexivity.
    + exact Htext.
    + exact Hc.
    + intros j' r' Hlt. lia.
  - intros H. destruct (IH _ _ H) as (j & r0 & t0 & -> & Hn & Ht & Hm & Hbefore).
    exists (S j), r0, t0. conjs.
    + lia.
    + exact Hn.
    + exact Ht.
    + exact Hm.
    + intros [|j'] r' Hlt Hr'.
      * injection Hr' as <-. exists text. auto.
      * apply (Hbefore j' r'); [lia | exact Hr'].
Qed.

(** X19.  [select_term] answers [True] only after clicking one option of
    the dropdown: the first one whose text contains the term, letter case
    aside.  Every option before it was read and does not contain the term.
    When it answers [False], no option was clicked. *)
Theorem select_term_first_match (page : term_page) (term : string) :
  (fst (select_term page term) = true ->
   exists rs i r text a b,
     term_results page = Ok rs
     /\ nth_error rs i = Some r
     /\ result_text r = Ok text
     /\ PyText.lower text = (a ++ PyText.lower term ++ b)%string
     /\ snd (select_term page term)
        = [Click_result i; Nav_print (Log_term_selected term)]
     /\ (forall j r', (j < i)%nat -> nth_error rs j = Some r' ->
           exists t', result_text r' = Ok t'
                      /\ PyText.contains (PyText.lower term) (PyText.lower t')
                         = false))
  /\ (fst (select_term page term) = false ->
      forall i, ~ In (Click_result i) (snd (select_term page term))).
Proof.
  unfold select_term.
  destruct (dropdown_trigger page); cbn [bind].
  2:{ split; [discriminate|]. intros _ i [H|[]]. discriminate H. }
  destruct (search_input page); cbn [bind].
  2:{ split; [discriminate|]. intros _ i [H|[]]. discriminate H. }
  destruct (term_results page) as [rs|]; cbn [bind].
  2:{ split; [discriminate|]. intros _ i [H|[]]. discriminate H. }
  destruct (pick_result term 0 rs) as [[k|]|e] eqn:Hpick; cbn [fst snd].
  - split; [|discriminate]. intros _.
    destruct (pick_result_some term rs 0%nat k Hpick)
      as (j & r & text & -> & Hn & Ht & Hm & Hbefore).
    apply contains_spec in Hm. destruct Hm as (x & y & Hxy).
    exists rs, j, r, text, x, y. conjs; auto.
  - split; [discriminate|]. intros _ i [H|[]]. discriminate H.
  - split; [discriminate|]. intros _ i [H|[]]. discriminate H.
Qed.

Lemma select_term_first_match_witness :
  let option_of t := {| result_text := Ok t; result_click := Ok tt |} in
  let page := {| dropdown_trigger := Ok tt; search_input := Ok tt;
                 term_results := Ok [option_of "Fall 2025";
                                     option_of "WINTER 2026 (View Only)";
                                     option_of "Winter 2026"] |} in
  exists i text,
    snd (select_term page "Winter 2026")
    = [Click_result i; Nav_print (Log_term_selected "Winter 2026")]
    /\ exists a b, PyText.lower text = (a ++ "winter 2026" ++ b)%string.
Proof.
  intros option_of page.
  destruct (proj1 (select_term_first_match page "Winter 2026") eq_refl)
    as (rs & i & r & text & a & b & _ & _ & _ & Hab & Hev & _).
  exists i, text. split; [exact Hev|]. exists a, b. exact Hab.
Defined.




(** ** The address of the login page *)








Example login_blank_answers :
  snd (login_to_platform
         {| get := fun _ => Ok tt; username_field := Ok tt;
            password_field := Ok tt; send_username := Ok tt;
            send_password := Ok tt; submit_button := Ok tt;
            dashboard := Ok tt |}
         (Some (choose_url " 4 " "  ")) (Ok ""))
  = [Nav_print (Log_navigating "https://my.ontariotechu.ca");
     Driver_get "https://my.ontariotechu.ca"; Nav_print Log_login_ok].
Proof. reflexivity. Qed.

(** ** From an open seat to a registration *)





(** ** What the menu shows and what the monitor does *)


Lemma view_watchlist_available (db : database) (l : list string) :
  map (fun line => fst (fst line))
      (filter (fun line => snd line)
              (flat_map (fun c => match check_course_availability db c with
                                  | Some course =>
                                      [(c, name course,
                                        0 <? available_spots course)]
                                  | None => []
                                  end) l))
  = filter (has_open_seat db) l.
Proof.
  induction l as [|c l IH]; [reflexivity|].
  cbn [flat_map filter]. rewrite filter_app, map_app, IH.
  unfold has_open_seat at 2.
  destruct (check_course_availability db c) as [course|]; [|reflexivity].
  cbn [filter snd]. destruct (0 <? available_spots course); reflexivity.
Qed.

(** X24.  The watchlist view and the monitor agree: the entries that menu
    entry 3 shows as AVAILABLE are, in the same order, the courses for which
    a scan of the same database calls [attempt_registration]. *)
Theorem view_watchlist_matches_scan (page : nat -> registration_page)
    (db : database) :
  map (fun line => fst (fst line))
      (filter (fun line => snd line) (view_watchlist db))
  = attempted (snd (acting page 0 (get_watchlist_courses db) db)).
Proof.
  unfold view_watchlist. rewrite view_watchlist_available.
  symmetry. apply acting_spec.
Qed.

Lemma unique_codes_same_row (l : list course_row) (r r' : course_row) :
  NoDup (map code_of l) -> In r l -> In r' l -> code_of r = code_of r' ->
  r = r'.
Proof.
  induction l as [|x l IH]; intros Hnd Hr Hr' Hcode; [destruct Hr|].
  simpl in Hnd. inversion Hnd as [|? ? Hx Hl]; subst.
  destruct Hr as [<-|Hr], Hr' as [<-|Hr'].
  - reflexivity.
  - exfalso. apply Hx. rewrite Hcode. apply in_map, Hr'.
  - exfalso. apply Hx. rewrite <- Hcode. apply in_map, Hr.
  - apply IH; assumption.
Qed.

(** X25.  The list of available courses (menu entry 1) and the monitor's
    test agree on a table without duplicate codes: a code is in the list
    exactly when the monitor would find an open seat for it. *)
Theorem list_available_matches_open_seat (db : database) (k : string) :
  unique_codes db ->
  (has_open_seat db k = true
   <-> exists n a t st, In (k, n, a, t, st) (list_available db)).
Proof.
  unfold unique_codes, has_open_seat, check_course_availability, list_available.
  intros Hnd. split.
  - destruct (find (fun r => String.eqb (code_of r) k) (courses db))
      as [r|] eqn:Hfind; [|discriminate].
    intros Hopen. apply find_some in Hfind as [Hin Hk].
    apply String.eqb_eq in Hk. unfold code_of in Hk.
    exists (name (c_course r)), (available_spots (c_course r)),
           (total_spots (c_course r)), (status (c_course r)).
    apply in_map_iff. exists r. rewrite Hk. split; [reflexivity|].
    apply filter_In. auto.
  - intros (n & a & t & st & Hin). apply in_map_iff in Hin.
    destruct Hin as (r & Heq & Hr). apply filter_In in Hr as [Hr Hopen].
    injection Heq as Hk _ _ _ _.
    destruct (find (fun r0 => String.eqb (code_of r0) k) (courses db))
      as [r'|] eqn:Hfind.
    + apply find_some in Hfind as [Hin' Hk'].
      apply String.eqb_eq in Hk'.
      assert (r' = r).
      { apply (unique_codes_same_row (courses db)); try assumption.
        unfold code_of in *. congruence. }
      subst r'. exact Hopen.
    + exfalso. apply (find_none _ _ Hfind) in Hr.
      unfold code_of in Hr. rewrite Hk, String.eqb_refl in Hr. discriminate.
Qed.

Lemma list_available_matches_open_seat_witness :
  has_open_seat db_open "CSCI1030U" = true
  <-> exists n a t st, In ("CSCI1030U", n, a, t, st) (list_available db_open).
Proof.
  apply list_available_matches_open_seat.
  repeat constructor. intros [].
Defined.
